(** * Oppia reader controllers: a shallow embedding of
      [core/controllers/reader.py] and of the editor prerequisites flow.

    The request handlers are translated as computations in a small
    exception-and-trace monad: a handler either returns a value or raises,
    and every call to an external recorder (statistics events, demo
    exploration reloads) is appended to a trace of effects, in program
    order.  The external collaborators (exploration store, rights manager,
    widget registry, classifier, HTML export) are fields of an environment
    record. *)

From Stdlib Require Import ZArith Ascii String Floats.
From stdpp Require Import gmap strings list.

Local Open Scope string_scope.
Local Open Scope list_scope.

(** ** Data model *)

(** Decoded JSON scalars, as they appear in payloads and parameters. *)
Inductive json : Type :=
| JNull
| JBool (b : bool)
| JNum (z : Z)
| JStr (s : string).

Abbreviation params := (gmap string json).
Abbreviation cargs := (gmap string json).

(** The domain objects of [core.domain.exp_domain] that the controllers
    read. *)
Module exp_domain.

(** [exp_domain.Content(type, value)] *)
Record Content : Type := mkContent {
  content_type : string;
  content_value : string
}.

(** The widget instance attached to a state. *)
Record WidgetInstance : Type := mkWidgetInstance {
  widget_id : string;
  customization_args : cargs;
  sticky : bool
}.

Record State : Type := mkState {
  content : list Content;
  widget : WidgetInstance
}.

Record Exploration : Type := mkExploration {
  id : string;
  title : string;
  default_skin : string;
  init_state_name : string;
  states : gmap string State
}.

(** The object returned by [exp_services.classify]: [dest] is the attribute,
    [get_feedback_string] the value of the method call of that name and
    [rule_str] the value of [str(rule)]. *)
Record Rule : Type := mkRule {
  dest : string;
  get_feedback_string : string;
  rule_str : string
}.

End exp_domain.
Import exp_domain.

(** A widget of the registry, with the three renderers the reader uses. *)
Record Widget : Type := mkWidget {
  get_raw_code : cargs → params → string;
  get_reader_response_html : cargs → params → json → string * string;
  get_stats_log_html : cargs → params → json → string
}.

(** ** Exceptions, effects and the handler monad *)

Inductive exn : Type :=
| PageNotFoundException
| InvalidInputException (msg : string)
| KeyError
| TypeError
| AttributeError
| IndexError
| ServiceError.

(** Calls whose only visible result is a side effect on an external store. *)
Inductive effect : Type :=
| record_state_hit (exploration_id state_name : string) (first_time : bool)
| record_answer_submitted
    (exploration_id state_name : string) (handler : json)
    (rule answer_html : string)
| record_state_feedback_from_reader
    (exploration_id state_name : string) (feedback : json)
    (state_history : option (list string))
| delete_demo (exploration_id : string)
| load_demo (exploration_id : string).

Inductive result (A : Type) : Type :=
| Ok (a : A)
| Raise (e : exn).
Arguments Ok {A} a.
Arguments Raise {A} e.

Definition M (A : Type) : Type := list effect → result A * list effect.

Definition ret {A} (a : A) : M A := λ t, (Ok a, t).

Definition bind {A B} (c : M A) (k : A → M B) : M B :=
  λ t, match c t with
       | (Ok a, t') => k a t'
       | (Raise e, t') => (Raise e, t')
       end.

Definition raise {A} (e : exn) : M A := λ t, (Raise e, t).

Definition emit (ev : effect) : M unit := λ t, (Ok tt, t ++ [ev]).

(** [try: c except Exception as e: h e] *)
Definition try_except {A} (c : M A) (h : exn → M A) : M A :=
  λ t, match c t with
       | (Ok a, t') => (Ok a, t')
       | (Raise e, t') => h e t'
       end.

(** A call that raises when the callee has no answer. *)
Definition call {A} (o : option A) (e : exn) : M A :=
  match o with
  | Some a => ret a
  | None => raise e
  end.

(** The monad is registered with stdpp's classes, which gives the notations
    [x ← c; k] and [c;; k] for sequencing. *)
#[global] Instance M_ret : MRet M := @ret.
#[global] Instance M_bind : MBind M := λ A B k c, bind c k.

(** ** Python string helpers *)

(** Truth value of a string: non-empty. *)
Definition truthy (s : string) : bool := negb (String.eqb s "").

(** [s.split(sep)] for a one-character separator. *)
Fixpoint split (sep : Ascii.ascii) (s : string) : list string :=
  match s with
  | EmptyString => [EmptyString]
  | String a r =>
      if Ascii.eqb a sep then EmptyString :: split sep r
      else match split sep r with
           | h :: tl => String a h :: tl
           | [] => [String a EmptyString]
           end
  end.

(** [sep.join(l)] *)
Fixpoint join (sep : string) (l : list string) : string :=
  match l with
  | [] => ""
  | [x] => x
  | x :: tl => x +:+ sep +:+ join sep tl
  end.

Definition newline : Ascii.ascii := "010"%char.

(** [x in l] for a list of strings. *)
Fixpoint str_in (x : string) (l : list string) : bool :=
  match l with
  | [] => false
  | y :: tl => if String.eqb y x then true else str_in x tl
  end.

(** ** External collaborators

    Everything the controllers import and call: [feconf] constants, the
    exploration services, the rights manager, the skins service, the widget
    registry and the base handler's state-name unescaping.  A lookup that
    raises in Python is an [option] here. *)
Record Env : Type := mkEnv {
  END_DEST : string;
  INTERACTIVE_PREFIX : string;
  get_exploration_by_id : string → option Exploration;
  get_public_explorations : list Exploration;
  get_init_params : string → params;
  update_with_state_params : string → string → params → params;
  export_content_to_html : string → list Content → params → string;
  classify : string → string → json → json → params → option Rule;
  can_view : option string → string → bool;
  is_exploration_public : string → bool;
  get_skin_html : string → string;
  get_widget_by_id : string → string → option Widget;
  unescape_state_name : string → string
}.

(** Attribute access on an object that may be [None]. *)
Definition attr {A} (o : option A) : M A := call o AttributeError.

(** ** [class ExplorationPage] *)
Module ExplorationPage.

Record Values : Type := mkValues {
  content : string;
  iframed : bool;
  is_public : bool
}.

Section Handler.
Variable env : Env.
(** The acting identity ([self.user_id], [None] when logged out) and the
    [iframed] request parameter. *)
Variable user_id : option string.
Variable request_iframed : string.

Definition get (exploration_id : string) : M Values :=
  exploration ←
    try_except
      (call (get_exploration_by_id env exploration_id) ServiceError)
      (λ _, raise PageNotFoundException);
  if negb (can_view env user_id exploration_id)
  then raise PageNotFoundException
  else
    mret {| content := get_skin_html env (default_skin exploration);
            iframed := String.eqb request_iframed "true";
            is_public := is_exploration_public env exploration_id |}.

End Handler.
End ExplorationPage.

(** ** [class RandomExplorationPage] *)
Module RandomExplorationPage.

(** Modelled from the spec: [utils.get_random_choice] is not part of the
    sources at hand; the spec says it picks a uniformly random element.  The
    random source is made explicit: [draw] is the index drawn uniformly from
    [range(len(alist))], and the element at that index is returned. *)
Definition get_random_choice {A} (draw : nat) (alist : list A) : M A :=
  call (alist !! draw) IndexError.

Section Handler.
Variable env : Env.
Variable request_iframed : string.

(** Returns the URL handed to [self.redirect]. *)
Definition get (draw : nat) : M string :=
  let iframed := String.eqb request_iframed "true" in
  let explorations := get_public_explorations env in
  selected_exploration_id ←
    (if (length explorations <=? 1)%nat
     then emit (delete_demo "1");; emit (load_demo "1");; mret "1"
     else e ← get_random_choice draw (drop 1 explorations); mret (id e));
  let dest_url := "/learn/" +:+ selected_exploration_id in
  let dest_url :=
    if iframed then dest_url +:+ "?iframed=true" else dest_url in
  mret dest_url.

End Handler.
End RandomExplorationPage.

(** ** [class ExplorationHandler] *)
Module ExplorationHandler.

Record Values : Type := mkValues {
  block_number : Z;
  interactive_html : string;
  oppia_html : string;
  params : gmap string json;
  state_history : list string;
  state_name : string;
  title : string
}.

Section Handler.
Variable env : Env.

Definition get (exploration_id : string) : M Values :=
  exploration ←
    try_except
      (call (get_exploration_by_id env exploration_id) ServiceError)
      (λ _, raise PageNotFoundException);
  let init_params := get_init_params env exploration_id in
  let reader_params :=
    update_with_state_params env exploration_id
      (init_state_name exploration) init_params in
  init_state ←
    call (states exploration !! init_state_name exploration) KeyError;
  let init_html :=
    export_content_to_html env exploration_id
      (exp_domain.content init_state) reader_params in
  interactive_widget ←
    call (get_widget_by_id env (INTERACTIVE_PREFIX env)
            (widget_id (widget init_state))) ServiceError;
  let interactive_html :=
    get_raw_code interactive_widget
      (customization_args (widget init_state)) reader_params in
  let values :=
    {| block_number := 0;
       interactive_html := interactive_html;
       oppia_html := init_html;
       params := reader_params;
       state_history := [init_state_name exploration];
       state_name := init_state_name exploration;
       title := exp_domain.title exploration |} in
  emit (record_state_hit exploration_id (init_state_name exploration) true);;
  mret values.

End Handler.
End ExplorationHandler.

(** ** [class FeedbackHandler] *)
Module FeedbackHandler.

(** The decoded JSON payload of a well-formed transition request: the
    block number an integer, the parameters an object, the history a list
    of state names.  A key the client did not send is [None]; [answer] and
    [handler] are read with [payload.get], whose default is Python's
    [None], here [JNull].  [FeedbackRequest], further down, has the handler
    on bodies of any shape; the two agree on well-formed ones
    ([post_of_payload]). *)
Record Payload : Type := mkPayload {
  p_answer : json;
  p_handler : json;
  p_block_number : option Z;
  p_params : option (gmap string json);
  p_state_history : option (list string)
}.

Record Values : Type := mkValues {
  reader_response_html : string;
  reader_response_iframe : string;
  interactive_html : string;
  exploration_id : string;
  state_name : string;
  oppia_html : string;
  block_number : Z;
  params : gmap string json;
  finished : bool;
  state_history : list string
}.

Section Handler.
Variable env : Env.

Definition _append_answer_to_stats_log
    (old_state : State) (answer : json) (exploration_id old_state_name : string)
    (old_params : gmap string json) (handler : json) (rule : Rule) : M unit :=
  widget ←
    call (get_widget_by_id env (INTERACTIVE_PREFIX env)
            (widget_id (exp_domain.widget old_state))) ServiceError;
  let recorded_answer :=
    get_stats_log_html widget
      (customization_args (exp_domain.widget old_state)) old_params answer in
  emit (record_answer_submitted
          exploration_id old_state_name handler (rule_str rule)
          recorded_answer).

Definition _get_feedback
    (exploration_id feedback : string) (params : gmap string json) : string :=
  if negb (truthy feedback) then ""
  else
    let feedback_bits := split newline feedback in
    export_content_to_html env exploration_id
      [mkContent "text" (join "<br>" feedback_bits)] params.

Definition _append_content
    (exploration_id : string) (sticky finished : bool)
    (old_params : gmap string json) (new_state : option State)
    (new_state_name : string) (state_has_changed : bool)
    (html_output : string) : M (gmap string json * string * string) :=
  if finished then mret (∅, html_output, "")
  else
    let new_params :=
      update_with_state_params env exploration_id new_state_name old_params in
    html_output ←
      (if state_has_changed then
         s ← attr new_state;
         let state_html :=
           export_content_to_html env exploration_id
             (exp_domain.content s) new_params in
         let html_output :=
           if truthy html_output && truthy state_html
           then html_output +:+ "<br>" else html_output in
         mret (html_output +:+ state_html)
       else mret html_output);
    interactive_html ←
      (if sticky then mret ""
       else
         s ← attr new_state;
         w ← call (get_widget_by_id env (INTERACTIVE_PREFIX env)
                     (widget_id (exp_domain.widget s))) ServiceError;
         mret (get_raw_code w
                 (customization_args (exp_domain.widget s)) new_params));
    mret (new_params, html_output, interactive_html).

(** The [sticky] conjunction of [post]; Python's [and] evaluates its right
    operand only when the left one is true. *)
Definition post_sticky
    (new_state_name : string) (new_state : option State) (old_state : State)
    : M bool :=
  if negb (String.eqb new_state_name (END_DEST env)) then
    s ← attr new_state;
    if exp_domain.sticky (exp_domain.widget s) then
      mret (String.eqb (widget_id (exp_domain.widget s))
              (widget_id (exp_domain.widget old_state)))
    else mret false
  else mret false.

(** [None if new_state_name == feconf.END_DEST
     else exploration.states[new_state_name]] *)
Definition post_new_state
    (exploration : Exploration) (new_state_name : string)
    : M (option State) :=
  if String.eqb new_state_name (END_DEST env) then mret None
  else s ← call (states exploration !! new_state_name) KeyError; mret (Some s).

Definition post
    (exploration_id escaped_state_name : string) (payload : Payload)
    : M Values :=
  let old_state_name := unescape_state_name env escaped_state_name in
  exploration ← call (get_exploration_by_id env exploration_id) ServiceError;
  old_state ← call (states exploration !! old_state_name) KeyError;
  let answer := p_answer payload in
  let handler := p_handler payload in
  n ← call (p_block_number payload) TypeError;
  let block_number := (n + 1)%Z in
  let old_params := <["answer" := answer]> (default ∅ (p_params payload)) in
  state_history ← call (p_state_history payload) KeyError;
  rule ←
    call (classify env exploration_id old_state_name handler answer old_params)
      ServiceError;
  let feedback := get_feedback_string rule in
  let new_state_name := dest rule in
  new_state ← post_new_state exploration new_state_name;
  emit (record_state_hit exploration_id new_state_name
          (negb (str_in new_state_name state_history)));;
  let state_history := state_history ++ [new_state_name] in
  sticky ← post_sticky new_state_name new_state old_state;
  _append_answer_to_stats_log
    old_state answer exploration_id old_state_name old_params handler rule;;
  old_widget ←
    call (get_widget_by_id env (INTERACTIVE_PREFIX env)
            (widget_id (exp_domain.widget old_state))) ServiceError;
  let response :=
    get_reader_response_html old_widget
      (customization_args (exp_domain.widget old_state)) old_params answer in
  let html_output := _get_feedback exploration_id feedback old_params in
  let finished := String.eqb new_state_name (END_DEST env) in
  let state_has_changed := negb (String.eqb old_state_name new_state_name) in
  out ←
    _append_content exploration_id sticky finished old_params new_state
      new_state_name state_has_changed html_output;
  mret {| reader_response_html := response.1;
          reader_response_iframe := response.2;
          interactive_html := out.2;
          exploration_id := exploration_id;
          state_name := new_state_name;
          oppia_html := out.1.2;
          block_number := block_number;
          params := out.1.1;
          finished := finished;
          state_history := state_history |}.

End Handler.
End FeedbackHandler.

(** ** [class ReaderFeedbackHandler] *)
Module ReaderFeedbackHandler.

Section Handler.
Variable env : Env.

Definition post
    (exploration_id escaped_state_name : string)
    (feedback : json) (state_history : option (list string)) : M unit :=
  let state_name := unescape_state_name env escaped_state_name in
  emit (record_state_feedback_from_reader
          exploration_id state_name feedback state_history).

End Handler.
End ReaderFeedbackHandler.

(** ** The editor prerequisites handler *)
Module EditorPrerequisitesHandler.

(** The JSON body [{agreed_to_terms, username?}]; an absent key is [None]. *)
Record Payload : Type := mkPayload {
  agreed_to_terms : option json;
  username : option string
}.

Definition is_alnum_char (c : Ascii.ascii) : bool :=
  let k := nat_of_ascii c in
  ((48 <=? k) && (k <=? 57) || (65 <=? k) && (k <=? 90)
   || (97 <=? k) && (k <=? 122))%nat.

Fixpoint all_alnum (s : string) : bool :=
  match s with
  | EmptyString => true
  | String c r => is_alnum_char c && all_alnum r
  end.

Definition terms_message : string := "you will need to accept".
Definition empty_username_message : string := "Empty username supplied".
Definition alphanumeric_message : string :=
  "can only have alphanumeric characters".

(** A request that names no username: an editor who has a username keeps
    it, as the last request of [test_accepting_terms_is_handled_correctly]
    (made by a registered editor, with the terms alone) requires; anyone
    else is told that the username is empty. *)
Definition without_username
    (user_id : string) (usernames : gmap string string)
    : result unit * gmap string string :=
  match usernames !! user_id with
  | Some _ => (Ok tt, usernames)
  | None => (Raise (InvalidInputException empty_username_message), usernames)
  end.

(** Modelled from the spec: the prerequisites handler itself is not part of
    the sources at hand, only its tests are.  Following the spec's words:
    it fails with a 400-class error unless [agreed_to_terms] is the literal
    [true]; then fails if the username is missing or empty; then fails if
    the username has a non-alphanumeric character; otherwise it stores the
    username against the signed-in identity.  The tests add one thing to
    the spec's words: a request without a username succeeds for an editor
    who has registered one.  [usernames] is the store of usernames by user
    id; the error messages are the literal texts the spec quotes. *)
Definition post
    (user_id : string) (payload : Payload) (usernames : gmap string string)
    : result unit * gmap string string :=
  match agreed_to_terms payload with
  | Some (JBool true) =>
      match username payload with
      | None => without_username user_id usernames
      | Some u =>
          if negb (truthy u)
          then without_username user_id usernames
          else if all_alnum u
          then (Ok tt, <[user_id := u]> usernames)
          else (Raise (InvalidInputException alphanumeric_message), usernames)
      end
  | _ => (Raise (InvalidInputException terms_message), usernames)
  end.

End EditorPrerequisitesHandler.

(** [sub in s] for strings. *)
Fixpoint contains (sub s : string) : bool :=
  if String.prefix sub s then true
  else match s with
       | EmptyString => false
       | String _ r => contains sub r
       end.


(** ** A small exploration store, used to run the handlers *)
Module Demo.

Definition text_input : WidgetInstance :=
  {| widget_id := "TextInput"; customization_args := ∅; sticky := false |}.
Definition multi_form : WidgetInstance :=
  {| widget_id := "MultiForm"; customization_args := ∅; sticky := true |}.

Definition intro : State :=
  {| content := [mkContent "text" "Welcome"]; widget := text_input |}.
Definition form_a : State :=
  {| content := [mkContent "text" "Part A"]; widget := multi_form |}.
Definition form_b : State :=
  {| content := [mkContent "text" "Part B"]; widget := multi_form |}.
Definition silent : State :=
  {| content := []; widget := text_input |}.

Definition lesson : Exploration :=
  {| id := "eid"; title := "A title"; default_skin := "conversation";
     init_state_name := "Intro";
     states := <["Intro" := intro]> (<["FormA" := form_a]>
               (<["FormB" := form_b]> (<["Silent" := silent]> ∅))) |}.

Definition other (i : string) : Exploration :=
  {| id := i; title := "Other"; default_skin := "conversation";
     init_state_name := "Intro"; states := <["Intro" := intro]> ∅ |}.

Definition render (l : list Content) : string :=
  join "" (map content_value l).

Definition the_widget (name : string) : Widget :=
  {| get_raw_code := λ _ _, "<" +:+ name +:+ ">";
     get_reader_response_html := λ _ _ _, ("You answered", "");
     get_stats_log_html := λ _ _ _, "answer" |}.

Definition rules (state_name : string) (answer : json) : option Rule :=
  match answer with
  | JStr "again" => Some (mkRule state_name "Try again" "again")
  | JStr "quiet" => Some (mkRule state_name "" "quiet")
  | JStr "intro" => Some (mkRule "Intro" "" "intro")
  | JStr "a" => Some (mkRule "FormA" "" "a")
  | JStr "b" => Some (mkRule "FormB" "Good" "b")
  | JStr "silent" => Some (mkRule "Silent" "Hm" "silent")
  | JStr "end" => Some (mkRule "END" "Bye" "end")
  | JStr "typo" =>
      Some (mkRule state_name ("Check your" +:+ String newline "spelling!")
              "typo")
  | _ => None
  end.

(** The lesson ["eid"] is unpublished and owned by ["editor"]; [public] is
    the list of published explorations. *)
Definition env_with (public : list Exploration) : Env :=
  {| END_DEST := "END";
     INTERACTIVE_PREFIX := "interactive";
     get_exploration_by_id := λ i, if String.eqb i "eid" then Some lesson else None;
     get_public_explorations := public;
     get_init_params := λ _, ∅;
     update_with_state_params := λ _ name p, <["state" := JStr name]> p;
     export_content_to_html := λ _ l _, render l;
     classify := λ _ name _ answer _, rules name answer;
     can_view := λ u i, match u with Some "editor" => true | _ => false end;
     is_exploration_public := λ _, false;
     get_skin_html := λ _, "<skin>";
     get_widget_by_id := λ _ w, Some (the_widget w);
     unescape_state_name := λ s, s |}.

Definition env : Env := env_with [other "0"; other "5"; other "7"].

Definition payload (answer : string) (n : Z) (h : list string)
    : FeedbackHandler.Payload :=
  {| FeedbackHandler.p_answer := JStr answer;
     FeedbackHandler.p_handler := JStr "submit";
     FeedbackHandler.p_block_number := Some n;
     FeedbackHandler.p_params := Some ∅;
     FeedbackHandler.p_state_history := Some h |}.

End Demo.

(** ** What a completed transition looks like

    The quantities the statements about [FeedbackHandler.post] are phrased
    with: the parameters the handler classifies with, the events it records
    and the response it renders around the three outputs of
    [_append_content]. *)
Module Transition.
Import FeedbackHandler.

Section Expected.
Variable env : Env.
Variables exploration_id old_state_name : string.
Variable payload : Payload.
Variable old_state : State.
Variable old_widget : Widget.
Variable n : Z.
Variable h : list string.
Variable rule : Rule.

(** [old_params] after [old_params['answer'] = answer]. *)
Definition old_params : gmap string json :=
  <["answer" := p_answer payload]> (default ∅ (p_params payload)).

(** The rendered feedback of the classified rule. *)
Definition feedback_html : string :=
  _get_feedback env exploration_id (get_feedback_string rule) old_params.

(** The rendered content of a destination state. *)
Definition state_html (new_state : State) : string :=
  export_content_to_html env exploration_id (exp_domain.content new_state)
    (update_with_state_params env exploration_id (dest rule) old_params).

(** The two events every completed transition records, in order. *)
Definition events : list effect :=
  [ record_state_hit exploration_id (dest rule) (negb (str_in (dest rule) h));
    record_answer_submitted exploration_id old_state_name (p_handler payload)
      (rule_str rule)
      (get_stats_log_html old_widget
         (customization_args (exp_domain.widget old_state))
         old_params (p_answer payload)) ].

Definition values
    (new_params : gmap string json) (html interactive : string) : Values :=
  let response :=
    get_reader_response_html old_widget
      (customization_args (exp_domain.widget old_state))
      old_params (p_answer payload) in
  {| reader_response_html := response.1;
     reader_response_iframe := response.2;
     interactive_html := interactive;
     FeedbackHandler.exploration_id := exploration_id;
     state_name := dest rule;
     oppia_html := html;
     block_number := (n + 1)%Z;
     params := new_params;
     finished := String.eqb (dest rule) (END_DEST env);
     state_history := h ++ [dest rule] |}.

End Expected.
End Transition.

(** ** Four submissions to the lesson of [Demo], with their responses *)
Module DemoRuns.
Import Demo.

Definition response
    (old_state : State) (answer : string) (n : Z) (h : list string)
    (rule : Rule) (new_params : gmap string json) (html interactive : string)
    : FeedbackHandler.Values :=
  Transition.values env "eid" (payload answer n h) old_state
    (the_widget (widget_id (widget old_state))) n h rule
    new_params html interactive.

Definition recorded
    (origin : string) (old_state : State) (answer : string) (n : Z)
    (h : list string) (rule : Rule) : list effect :=
  Transition.events "eid" origin (payload answer n h) old_state
    (the_widget (widget_id (widget old_state))) h rule.

Definition params_after (answer state_name : string) : gmap string json :=
  <["state" := JStr state_name]> (<["answer" := JStr answer]> ∅).

(** ["again"] in [Intro]: a self-transition with feedback. *)
Definition again_rule : Rule := mkRule "Intro" "Try again" "again".
Definition again : FeedbackHandler.Values :=
  response intro "again" 0 ["Intro"] again_rule
    (params_after "again" "Intro") "Try again" "<TextInput>".

(** ["b"] in [Intro]: on to [FormB], whose widget differs. *)
Definition b_rule : Rule := mkRule "FormB" "Good" "b".
Definition intro_to_b : FeedbackHandler.Values :=
  response intro "b" 3 ["Intro"] b_rule
    (params_after "b" "FormB") "Good<br>Part B" "<MultiForm>".

(** ["b"] in [FormA]: on to [FormB], same sticky widget. *)
Definition a_to_b : FeedbackHandler.Values :=
  response form_a "b" 5 ["Intro"; "FormA"] b_rule
    (params_after "b" "FormB") "Good<br>Part B" "".

(** ["end"] in [FormB]: the lesson is over. *)
Definition end_rule : Rule := mkRule "END" "Bye" "end".
Definition b_to_end : FeedbackHandler.Values :=
  response form_b "end" 7 ["Intro"; "FormA"; "FormB"] end_rule ∅ "Bye" "".

End DemoRuns.

(** ** [class ReaderControllerEndToEndTests] of [reader_test.py]

    The test case plays the client: it keeps the session between requests
    and sends it back with every answer.  A test goes on, fails one of its
    assertions, or dies of an exception of the handler it calls. *)
Module ReaderControllerEndToEndTests.

(** The attributes the test case carries from one request to the next. *)
Record Client : Type := mkClient {
  exploration_id : string;
  last_block_number : Z;
  last_params : gmap string json;
  last_state_name : string;
  state_history : list string
}.

Inductive failure : Type :=
| AssertionError
| HandlerError (e : exn).

Definition T (A : Type) : Type := list effect → (failure + A) * list effect.

#[global] Instance T_ret : MRet T := λ A a t, (inr a, t).
#[global] Instance T_bind : MBind T :=
  λ A B k c t, match c t with
               | (inr a, t') => k a t'
               | (inl f, t') => (inl f, t')
               end.

(** A call into the application, be it a request to a handler or a call of
    a service: its exception ends the test. *)
Definition request {A} (c : M A) : T A :=
  λ t, match c t with
       | (Ok a, t') => (inr a, t')
       | (Raise e, t') => (inl (HandlerError e), t')
       end.

Definition assertEqual {A} `{EqDecision A} (first second : A) : T unit :=
  λ t, if decide (first = second) then (inr tt, t) else (inl AssertionError, t).

Section TestCase.
Variable env : Env.
(** [re.search(regex, text)] found a match. *)
Variable regex_search : string → string → bool.

Definition assertRegexpMatches (text regex : string) : T unit :=
  λ t, if regex_search regex text then (inr tt, t) else (inl AssertionError, t).

(** Returns the updated test case with the response. *)
Definition _submit_answer (self : Client) (answer : json)
    : T (Client * FeedbackHandler.Values) :=
  reader_dict ←
    request
      (FeedbackHandler.post env (exploration_id self) (last_state_name self)
         {| FeedbackHandler.p_answer := answer;
            FeedbackHandler.p_block_number := Some (last_block_number self);
            FeedbackHandler.p_handler := JStr "submit";
            FeedbackHandler.p_params := Some (last_params self);
            FeedbackHandler.p_state_history := Some (state_history self) |});
  let self :=
    {| exploration_id := exploration_id self;
       last_block_number := FeedbackHandler.block_number reader_dict;
       last_params := FeedbackHandler.params reader_dict;
       last_state_name := FeedbackHandler.state_name reader_dict;
       state_history :=
         state_history self ++ [FeedbackHandler.state_name reader_dict] |} in
  assertEqual (FeedbackHandler.state_history reader_dict) (state_history self);;
  mret (self, reader_dict).

Definition submit_and_compare
    (self : Client) (answer : json) (expected_response : string) : T Client :=
  out ← _submit_answer self answer;
  assertRegexpMatches (FeedbackHandler.oppia_html out.2) expected_response;;
  mret out.1.

(** [env] is the store as the reload of the demo exploration leaves it. *)
Definition init_player
    (exploration_id expected_title expected_response : string) : T Client :=
  request (emit (delete_demo exploration_id));;
  request (emit (load_demo exploration_id));;
  reader_dict ← request (ExplorationHandler.get env exploration_id);
  let self :=
    {| exploration_id := exploration_id;
       last_block_number := ExplorationHandler.block_number reader_dict;
       last_params := ExplorationHandler.params reader_dict;
       last_state_name := ExplorationHandler.state_name reader_dict;
       state_history := [ExplorationHandler.state_name reader_dict] |} in
  assertEqual (ExplorationHandler.state_history reader_dict)
    (state_history self);;
  assertRegexpMatches (ExplorationHandler.oppia_html reader_dict)
    expected_response;;
  assertEqual (ExplorationHandler.title reader_dict) expected_title;;
  mret self.

(** A run of [submit_and_compare] calls, one after the other. *)
Fixpoint submit_all (self : Client) (steps : list (json * string))
    : T Client :=
  match steps with
  | [] => mret self
  | (answer, expected_response) :: steps =>
      self ← submit_and_compare self answer expected_response;
      submit_all self steps
  end.

(** The shape of the three tests: [init_player], then the submissions. *)
Definition play
    (exploration_id expected_title expected_response : string)
    (steps : list (json * string)) : T Client :=
  self ← init_player exploration_id expected_title expected_response;
  submit_all self steps.

Definition test_welcome_exploration : T Client :=
  play "0" "Welcome to Oppia!" "do you know where the name 'Oppia'"
    [ (JStr "0", "In fact, the word Oppia means 'learn'.");
      (JStr "Finish", "Check your spelling!");
      (JStr "Finnish", "Yes! Oppia is the Finnish word for learn.") ].

Definition test_parametrized_adventure : T Client :=
  play "6" "Parameterized Adventure" "Hello, brave adventurer"
    [ (JStr "My Name", "Hello, I'm My Name!.*get a pretty red");
      (JNum 0, "fork in the road");
      (JStr "ne", "Hello, My Name. You have to pay a toll") ].

End TestCase.
End ReaderControllerEndToEndTests.

(** ** A registry with a widget missing *)
Module Faulty.

(** [Demo.env] with [missing] removed from the widget registry. *)
Definition env (missing : string) : Env :=
  {| END_DEST := END_DEST Demo.env;
     INTERACTIVE_PREFIX := INTERACTIVE_PREFIX Demo.env;
     get_exploration_by_id := get_exploration_by_id Demo.env;
     get_public_explorations := get_public_explorations Demo.env;
     get_init_params := get_init_params Demo.env;
     update_with_state_params := update_with_state_params Demo.env;
     export_content_to_html := export_content_to_html Demo.env;
     classify := classify Demo.env;
     can_view := can_view Demo.env;
     is_exploration_public := is_exploration_public Demo.env;
     get_skin_html := get_skin_html Demo.env;
     get_widget_by_id := λ prefix w,
       if String.eqb w missing then None
       else get_widget_by_id Demo.env prefix w;
     unescape_state_name := unescape_state_name Demo.env |}.

End Faulty.

(** [c in s] for a character. *)
Fixpoint has_char (c : Ascii.ascii) (s : string) : bool :=
  match s with
  | EmptyString => false
  | String a r => Ascii.eqb a c || has_char c r
  end.

(** The destination as [post] binds it: [None] for the end sentinel, the
    state of that name otherwise. *)
Definition destination_of
    (env : Env) (exploration : Exploration) (d : string)
    (new_state : option State) : Prop :=
  d = END_DEST env ∧ new_state = None
  ∨ d ≠ END_DEST env ∧ ∃ s, new_state = Some s ∧ states exploration !! d = Some s.

(** The response to a transition into [new_state], whose widget [w] is
    consulted when the transition is not sticky. *)
Definition post_continues_values
    (env : Env) (exploration_id old_state_name : string)
    (payload : FeedbackHandler.Payload) (old_state : State)
    (old_widget : Widget) (n : Z) (h : list string) (rule : Rule)
    (new_state : State) (w : Widget) : FeedbackHandler.Values :=
  let feedback := Transition.feedback_html env exploration_id payload rule in
  let state_html :=
    Transition.state_html env exploration_id payload rule new_state in
  let new_params :=
    update_with_state_params env exploration_id (dest rule)
      (Transition.old_params payload) in
  Transition.values env exploration_id payload old_state old_widget n h rule
    new_params
    (if negb (String.eqb old_state_name (dest rule))
     then (if truthy feedback && truthy state_html
           then feedback +:+ "<br>" else feedback) +:+ state_html
     else feedback)
    (if sticky (widget new_state)
        && String.eqb (widget_id (widget new_state))
             (widget_id (widget old_state))
     then ""
     else get_raw_code w (customization_args (widget new_state)) new_params).

(** ** A session on the demo lesson, as the test case plays it *)
Module DemoSession.
Import ReaderControllerEndToEndTests.

(** The answer of the init handler for the lesson. *)
Definition init : ExplorationHandler.Values :=
  {| ExplorationHandler.block_number := 0;
     ExplorationHandler.interactive_html := "<TextInput>";
     ExplorationHandler.oppia_html := "Welcome";
     ExplorationHandler.params := <["state" := JStr "Intro"]> ∅;
     ExplorationHandler.state_history := ["Intro"];
     ExplorationHandler.state_name := "Intro";
     ExplorationHandler.title := "A title" |}.

(** The test case right after [init_player]. *)
Definition started : Client :=
  {| exploration_id := "eid"; last_block_number := 0;
     last_params := <["state" := JStr "Intro"]> ∅;
     last_state_name := "Intro"; state_history := ["Intro"] |}.

(** A test case in [Intro] at block 3, and what ["b"] makes of it. *)
Definition at_intro : Client :=
  {| exploration_id := "eid"; last_block_number := 3; last_params := ∅;
     last_state_name := "Intro"; state_history := ["Intro"] |}.
Definition at_form_b : Client :=
  {| exploration_id := "eid"; last_block_number := 4;
     last_params := DemoRuns.params_after "b" "FormB";
     last_state_name := "FormB"; state_history := ["Intro"; "FormB"] |}.

(** The test case after ["b"] and ["end"] from the start. *)
Definition ended : Client :=
  {| exploration_id := "eid"; last_block_number := 2; last_params := ∅;
     last_state_name := "END"; state_history := ["Intro"; "FormB"; "END"] |}.

(** Patterns without operators match where they occur. *)
Definition matches (regex text : string) : bool := contains regex text.

(** ["again"] in [FormA]: the reader stays on the sticky form. *)
Definition stay_rule : Rule := mkRule "FormA" "Try again" "again".
Definition stay_on_form : FeedbackHandler.Values :=
  DemoRuns.response Demo.form_a "again" 5 ["Intro"; "FormA"] stay_rule
    (DemoRuns.params_after "again" "FormA") "Try again" "".

End DemoSession.

(** ** The transition handler on the request body as it arrives

    [FeedbackHandler.Payload] is the body of a well-formed request: an
    integer block number, an object of parameters, a list of state names.
    The handler does not check any of this: it takes what [json.loads] made
    of the body.  Here the three keys hold arbitrary JSON values and every
    operation of [post] on them is Python's on a value of that kind. *)
Module FeedbackRequest.

(** A decoded JSON value.  The members of an object are kept as scalars:
    the handler hands them on without looking at them. *)
#[warnings="-register-all"]
Inductive value : Type :=
| VNone
| VBool (b : bool)
| VInt (z : Z)
| VFloat (f : float)
| VStr (s : string)
| VList (l : list value)
| VDict (d : gmap string json).

(** The request body; a key the client did not send is [None]. *)
Record Payload : Type := mkPayload {
  p_answer : json;
  p_handler : json;
  p_block_number : option value;
  p_params : option value;
  p_state_history : option value
}.

Record Values : Type := mkValues {
  reader_response_html : string;
  reader_response_iframe : string;
  interactive_html : string;
  exploration_id : string;
  state_name : string;
  oppia_html : string;
  block_number : value;
  params : gmap string json;
  finished : bool;
  state_history : list value
}.

(** [x + 1], for [x] the result of [payload.get]: integers are unbounded,
    a float takes the IEEE sum, [True] and [False] count as 1 and 0, and
    nothing else can be added to. *)
Definition add_one (x : option value) : M value :=
  match x with
  | Some (VInt n) => mret (VInt (n + 1))
  | Some (VFloat f) => mret (VFloat (f + 1))
  | Some (VBool b) => mret (VInt (Z.b2z b + 1))
  | _ => raise TypeError
  end.

(** [d[key] = x]: only an object supports it. *)
Definition setitem (d : value) (key : string) (x : json)
    : M (gmap string json) :=
  match d with
  | VDict d => mret (<[key := x]> d)
  | _ => raise TypeError
  end.

(** [x == name] for a string [name]. *)
Definition is_str (name : string) (x : value) : bool :=
  match x with
  | VStr s => String.eqb s name
  | _ => false
  end.

(** [name not in history]: membership in a list, occurrence in a string,
    presence among the keys of an object; other values are not iterable. *)
Definition not_in (name : string) (history : value) : M bool :=
  match history with
  | VList l => mret (negb (existsb (is_str name) l))
  | VStr s => mret (negb (contains name s))
  | VDict d => mret (negb (bool_decide (is_Some (d !! name))))
  | _ => raise TypeError
  end.

(** The kinds of values the operations above accept. *)
Definition can_add (x : option value) : bool :=
  match x with
  | Some (VInt _) | Some (VFloat _) | Some (VBool _) => true
  | _ => false
  end.

Definition is_object (x : value) : bool :=
  match x with VDict _ => true | _ => false end.

Definition is_list (x : value) : bool :=
  match x with VList _ => true | _ => false end.

Definition iterable (x : value) : bool :=
  match x with VList _ | VStr _ | VDict _ => true | _ => false end.

(** [history.append(name)]: only a list has the method. *)
Definition append (history : value) (name : string) : M (list value) :=
  match history with
  | VList l => mret (l ++ [VStr name])
  | _ => raise AttributeError
  end.

Section Handler.
Variable env : Env.

Definition post
    (exploration_id escaped_state_name : string) (payload : Payload)
    : M Values :=
  let old_state_name := unescape_state_name env escaped_state_name in
  exploration ← call (get_exploration_by_id env exploration_id) ServiceError;
  old_state ← call (states exploration !! old_state_name) KeyError;
  let answer := p_answer payload in
  let handler := p_handler payload in
  block_number ← add_one (p_block_number payload);
  old_params ←
    setitem (default (VDict ∅) (p_params payload)) "answer" answer;
  state_history ← call (p_state_history payload) KeyError;
  rule ←
    call (classify env exploration_id old_state_name handler answer old_params)
      ServiceError;
  let feedback := get_feedback_string rule in
  let new_state_name := dest rule in
  new_state ← FeedbackHandler.post_new_state env exploration new_state_name;
  first_visit ← not_in new_state_name state_history;
  emit (record_state_hit exploration_id new_state_name first_visit);;
  state_history ← append state_history new_state_name;
  sticky ← FeedbackHandler.post_sticky env new_state_name new_state old_state;
  FeedbackHandler._append_answer_to_stats_log env
    old_state answer exploration_id old_state_name old_params handler rule;;
  old_widget ←
    call (get_widget_by_id env (INTERACTIVE_PREFIX env)
            (widget_id (exp_domain.widget old_state))) ServiceError;
  let response :=
    get_reader_response_html old_widget
      (customization_args (exp_domain.widget old_state)) old_params answer in
  let html_output :=
    FeedbackHandler._get_feedback env exploration_id feedback old_params in
  let finished := String.eqb new_state_name (END_DEST env) in
  let state_has_changed := negb (String.eqb old_state_name new_state_name) in
  out ←
    FeedbackHandler._append_content env exploration_id sticky finished
      old_params new_state new_state_name state_has_changed html_output;
  mret {| reader_response_html := response.1;
          reader_response_iframe := response.2;
          interactive_html := out.2;
          exploration_id := exploration_id;
          state_name := new_state_name;
          oppia_html := out.1.2;
          block_number := block_number;
          params := out.1.1;
          finished := finished;
          state_history := state_history |}.

End Handler.

(** [old_params] once the answer is stored in it. *)
Definition old_params (payload : Payload) : gmap string json :=
  <["answer" := p_answer payload]>
    match p_params payload with Some (VDict d) => d | _ => ∅ end.

(** The body of a well-formed request, and the response to it. *)
Definition of_payload (payload : FeedbackHandler.Payload) : Payload :=
  {| p_answer := FeedbackHandler.p_answer payload;
     p_handler := FeedbackHandler.p_handler payload;
     p_block_number := VInt <$> FeedbackHandler.p_block_number payload;
     p_params := VDict <$> FeedbackHandler.p_params payload;
     p_state_history :=
       (λ h, VList (VStr <$> h)) <$> FeedbackHandler.p_state_history payload |}.

Definition of_values (v : FeedbackHandler.Values) : Values :=
  {| reader_response_html := FeedbackHandler.reader_response_html v;
     reader_response_iframe := FeedbackHandler.reader_response_iframe v;
     interactive_html := FeedbackHandler.interactive_html v;
     exploration_id := FeedbackHandler.exploration_id v;
     state_name := FeedbackHandler.state_name v;
     oppia_html := FeedbackHandler.oppia_html v;
     block_number := VInt (FeedbackHandler.block_number v);
     params := FeedbackHandler.params v;
     finished := FeedbackHandler.finished v;
     state_history := VStr <$> FeedbackHandler.state_history v |}.

(** The exact value [m * 2 ^ e] of a number, as the pair [(m, e)]. *)
Definition exact (x : value) : option (Z * Z) :=
  match x with
  | VInt n => Some (n, 0%Z)
  | VFloat f =>
      match Prim2SF f with
      | S754_zero _ => Some (0%Z, 0%Z)
      | S754_finite s m e => Some (if s then Z.neg m else Z.pos m, e)
      | _ => None
      end
  | _ => None
  end.

(** [b] is exactly [a + 1]. *)
Definition one_greater (a b : Z * Z) : bool :=
  let k := Z.min (Z.min a.2 b.2) 0 in
  (b.1 * 2 ^ (b.2 - k) =? a.1 * 2 ^ (a.2 - k) + 2 ^ (- k))%Z.

(** The number [y] is exactly one greater than the number [x]. *)
Definition successor (x y : value) : Prop :=
  match exact x, exact y with
  | Some a, Some b => one_greater a b = true
  | _, _ => False
  end.

End FeedbackRequest.

(** ** Requests that are not well formed, sent to the demo lesson *)
Module DemoRequests.
Import FeedbackRequest.

Definition body
    (answer : string) (block_number params state_history : option value)
    : Payload :=
  {| p_answer := JStr answer; p_handler := JStr "submit";
     p_block_number := block_number; p_params := params;
     p_state_history := state_history |}.

(** 2 ^ 53, the first float whose successor is not a float. *)
Definition big : float := 9007199254740992%float.

(** ["b"] in [Intro], the block number sent as the float [big]. *)
Definition float_block : Payload :=
  body "b" (Some (VFloat big)) (Some (VDict ∅)) (Some (VList [VStr "Intro"])).

Definition float_block_response : Values :=
  {| reader_response_html := "You answered";
     reader_response_iframe := "";
     interactive_html := "<MultiForm>";
     exploration_id := "eid";
     state_name := "FormB";
     oppia_html := "Good<br>Part B";
     block_number := VFloat big;
     params := DemoRuns.params_after "b" "FormB";
     finished := false;
     state_history := [VStr "Intro"; VStr "FormB"] |}.

(** ["b"] in [Intro], the history sent as the string ["Intro"]. *)
Definition string_history : Payload :=
  body "b" (Some (VInt 3)) None (Some (VStr "Intro")).

(** ["b"] in [Intro], the parameters sent as [null]. *)
Definition null_params : Payload :=
  body "b" (Some (VInt 3)) (Some VNone) None.

End DemoRequests.

(** * Properties *)

(** ** Stepping the monad *)

Lemma bind_ok {A B} (c : M A) (k : A → M B) t a t' :
  c t = (Ok a, t') → (c ≫= k) t = k a t'.
Proof. intros H. unfold mbind, M_bind, bind. by rewrite H. Qed.

Lemma bind_raise {A B} (c : M A) (k : A → M B) t e t' :
  c t = (Raise e, t') → (c ≫= k) t = (Raise e, t').
Proof. intros H. unfold mbind, M_bind, bind. by rewrite H. Qed.

Lemma bind_inv {A B} (c : M A) (k : A → M B) t b t' :
  (c ≫= k) t = (Ok b, t') → ∃ a t1, c t = (Ok a, t1) ∧ k a t1 = (Ok b, t').
Proof.
  unfold mbind, M_bind, bind. destruct (c t) as [[a|e] t1]; [eauto | done].
Qed.

Lemma bind_ext {A B} (c : M A) (k k' : A → M B) t :
  (∀ a t1, k a t1 = k' a t1) → (c ≫= k) t = (c ≫= k') t.
Proof.
  intros H. unfold mbind, M_bind, bind. destruct (c t) as [[a|e] t1]; auto.
Qed.

Lemma bind_cong {A B} (c c' : M A) (k : A → M B) t :
  (∀ t1, c t1 = c' t1) → (c ≫= k) t = (c' ≫= k) t.
Proof. intros H. unfold mbind, M_bind, bind. by rewrite H. Qed.

Lemma call_ok {A} (o : option A) e t a : o = Some a → call o e t = (Ok a, t).
Proof. by intros ->. Qed.

Lemma call_inv {A} (o : option A) e t a t' :
  call o e t = (Ok a, t') → o = Some a ∧ t' = t.
Proof. destruct o; unfold call, ret, raise; naive_solver. Qed.

Lemma mret_inv {A} (a b : A) t t' :
  (mret a : M A) t = (Ok b, t') → b = a ∧ t' = t.
Proof. unfold mret, M_ret, ret. naive_solver. Qed.

Ltac mstep :=
  repeat first
    [ erewrite bind_ok by (apply call_ok; eassumption)
    | erewrite bind_ok by reflexivity ];
  cbv beta.

(** ** The exploration page and the init handler *)

Section PageFacts.
Variable env : Env.
Variable user_id : option string.
Variables request_iframed exploration_id : string.

Lemma ExplorationPage_get_unresolved t :
  get_exploration_by_id env exploration_id = None →
  ExplorationPage.get env user_id request_iframed exploration_id t
  = (Raise PageNotFoundException, t).
Proof.
  intros H. unfold ExplorationPage.get.
  erewrite bind_raise; [done |]. unfold try_except. by rewrite H.
Qed.

Lemma ExplorationPage_get_forbidden e t :
  get_exploration_by_id env exploration_id = Some e →
  can_view env user_id exploration_id = false →
  ExplorationPage.get env user_id request_iframed exploration_id t
  = (Raise PageNotFoundException, t).
Proof.
  intros H Hv. unfold ExplorationPage.get.
  erewrite bind_ok; [| unfold try_except; by rewrite H].
  by rewrite Hv.
Qed.

Lemma ExplorationPage_get_ok e t :
  get_exploration_by_id env exploration_id = Some e →
  can_view env user_id exploration_id = true →
  ExplorationPage.get env user_id request_iframed exploration_id t
  = (Ok {| ExplorationPage.content := get_skin_html env (default_skin e);
           ExplorationPage.iframed := String.eqb request_iframed "true";
           ExplorationPage.is_public :=
             is_exploration_public env exploration_id |}, t).
Proof.
  intros H Hv. unfold ExplorationPage.get.
  erewrite bind_ok; [| unfold try_except; by rewrite H].
  by rewrite Hv.
Qed.

Lemma ExplorationHandler_get_unresolved t :
  get_exploration_by_id env exploration_id = None →
  ExplorationHandler.get env exploration_id t
  = (Raise PageNotFoundException, t).
Proof.
  intros H. unfold ExplorationHandler.get.
  erewrite bind_raise; [done |]. unfold try_except. by rewrite H.
Qed.

(** The init handler never consults the rights manager: once the id, the
    initial state and its widget resolve, it answers, whoever asks. *)
Lemma ExplorationHandler_get_ok e s w t :
  get_exploration_by_id env exploration_id = Some e →
  states e !! init_state_name e = Some s →
  get_widget_by_id env (INTERACTIVE_PREFIX env) (widget_id (widget s))
  = Some w →
  ∃ v, ExplorationHandler.get env exploration_id t
       = (Ok v, t ++ [record_state_hit exploration_id (init_state_name e) true])
       ∧ ExplorationHandler.block_number v = 0%Z
       ∧ ExplorationHandler.state_history v = [init_state_name e]
       ∧ ExplorationHandler.state_name v = init_state_name e
       ∧ ExplorationHandler.title v = title e
       ∧ ExplorationHandler.oppia_html v
         = export_content_to_html env exploration_id (content s)
             (update_with_state_params env exploration_id (init_state_name e)
                (get_init_params env exploration_id)).
Proof.
  intros H Hs Hw. eexists. split.
  - unfold ExplorationHandler.get.
    erewrite bind_ok; [| unfold try_except; by rewrite H].
    cbv beta zeta. mstep. reflexivity.
  - done.
Qed.

End PageFacts.

(** ** The answer-submission handler *)

Lemma eqb_false_ne (a b : string) : a ≠ b → String.eqb a b = false.
Proof. by intros; apply String.eqb_neq. Qed.

Section TransitionFacts.
Import FeedbackHandler.
Variable env : Env.
Variables exploration_id escaped_state_name : string.
Variable payload : Payload.

Abbreviation old_state_name := (unescape_state_name env escaped_state_name).
Abbreviation old_params := (Transition.old_params payload).

Variable exploration : Exploration.
Variable old_state : State.
Variable n : Z.
Variable h : list string.
Variable rule : Rule.
Variable old_widget : Widget.

Hypothesis Hexploration :
  get_exploration_by_id env exploration_id = Some exploration.
Hypothesis Hold_state : states exploration !! old_state_name = Some old_state.
Hypothesis Hblock : p_block_number payload = Some n.
Hypothesis Hhistory : p_state_history payload = Some h.
Hypothesis Hrule :
  classify env exploration_id old_state_name (p_handler payload)
    (p_answer payload) old_params = Some rule.
Hypothesis Hold_widget :
  get_widget_by_id env (INTERACTIVE_PREFIX env) (widget_id (widget old_state))
  = Some old_widget.

Abbreviation events :=
  (Transition.events exploration_id old_state_name payload old_state
     old_widget h rule).
Abbreviation values :=
  (Transition.values env exploration_id payload old_state old_widget n h rule).
Abbreviation feedback_html :=
  (Transition.feedback_html env exploration_id payload rule).
Abbreviation state_html :=
  (Transition.state_html env exploration_id payload rule).

Lemma append_answer_to_stats_log_emit t :
  _append_answer_to_stats_log env old_state (p_answer payload) exploration_id
    old_state_name old_params (p_handler payload) rule t
  = emit (record_answer_submitted exploration_id old_state_name
            (p_handler payload) (rule_str rule)
            (get_stats_log_html old_widget
               (customization_args (widget old_state)) old_params
               (p_answer payload))) t.
Proof. unfold _append_answer_to_stats_log. mstep. reflexivity. Qed.

(** The handler, once the lookups that do not depend on the destination
    have succeeded. *)
Lemma post_unfold t :
  post env exploration_id escaped_state_name payload t
  = (new_state ← post_new_state env exploration (dest rule);
     emit (record_state_hit exploration_id (dest rule)
             (negb (str_in (dest rule) h)));;
     sticky ← post_sticky env (dest rule) new_state old_state;
     emit (record_answer_submitted exploration_id old_state_name
             (p_handler payload) (rule_str rule)
             (get_stats_log_html old_widget
                (customization_args (widget old_state)) old_params
                (p_answer payload)));;
     out ← _append_content env exploration_id sticky
             (String.eqb (dest rule) (END_DEST env)) old_params new_state
             (dest rule) (negb (String.eqb old_state_name (dest rule)))
             feedback_html;
     mret (values out.1.1 out.1.2 out.2)) t.
Proof.
  unfold post. fold old_params. mstep.
  apply bind_ext; intros new_state t1.
  apply bind_ext; intros _ t2.
  apply bind_ext; intros b t3.
  etrans; [apply bind_cong, append_answer_to_stats_log_emit |].
  apply bind_ext; intros _ t4.
  mstep. reflexivity.
Qed.

(** A transition to the end sentinel. *)
Lemma post_finished t :
  dest rule = END_DEST env →
  post env exploration_id escaped_state_name payload t
  = (Ok (values ∅ feedback_html ""), t ++ events).
Proof.
  intros Hend. rewrite post_unfold.
  unfold post_new_state, post_sticky, _append_content.
  rewrite Hend, String.eqb_refl. cbn [negb].
  unfold mbind, M_bind, bind, mret, M_ret, ret, emit. cbn.
  unfold Transition.events. rewrite Hend, <- app_assoc. reflexivity.
Qed.

Lemma post_new_state_resolved new_state t :
  dest rule ≠ END_DEST env →
  states exploration !! dest rule = Some new_state →
  post_new_state env exploration (dest rule) t = (Ok (Some new_state), t).
Proof.
  intros Hne Hnew. unfold post_new_state.
  rewrite (eqb_false_ne _ _ Hne). mstep. reflexivity.
Qed.

(** The value of the [sticky] conjunction on a resolved destination. *)
Lemma post_sticky_resolved new_state t :
  post_sticky env (dest rule) (Some new_state) old_state t
  = (Ok (negb (String.eqb (dest rule) (END_DEST env))
         && sticky (widget new_state)
         && String.eqb (widget_id (widget new_state))
              (widget_id (widget old_state))), t).
Proof.
  unfold post_sticky.
  destruct (String.eqb (dest rule) (END_DEST env)); [reflexivity |].
  cbn [negb andb]. unfold attr. mstep.
  destruct (sticky (widget new_state)); reflexivity.
Qed.

(** A transition to a state of the exploration.  The destination's widget
    is looked up in the registry only when the transition is not sticky. *)
Lemma post_continues new_state w t :
  dest rule ≠ END_DEST env →
  states exploration !! dest rule = Some new_state →
  (sticky (widget new_state)
   && String.eqb (widget_id (widget new_state)) (widget_id (widget old_state))
   = false →
   get_widget_by_id env (INTERACTIVE_PREFIX env)
     (widget_id (widget new_state)) = Some w) →
  post env exploration_id escaped_state_name payload t
  = (Ok (values
           (update_with_state_params env exploration_id (dest rule) old_params)
           (if negb (String.eqb old_state_name (dest rule))
            then (if truthy feedback_html && truthy (state_html new_state)
                  then feedback_html +:+ "<br>" else feedback_html)
                 +:+ state_html new_state
            else feedback_html)
           (if sticky (widget new_state)
               && String.eqb (widget_id (widget new_state))
                    (widget_id (widget old_state))
            then ""
            else get_raw_code w (customization_args (widget new_state))
                   (update_with_state_params env exploration_id (dest rule)
                      old_params))),
     t ++ events).
Proof.
  intros Hne Hnew Hw. rewrite post_unfold.
  erewrite bind_ok by (by apply post_new_state_resolved).
  mstep.
  erewrite bind_ok by apply post_sticky_resolved.
  rewrite (eqb_false_ne _ _ Hne). cbn [negb andb]. mstep.
  unfold _append_content, attr, call, mbind, M_bind, bind, mret, M_ret, ret.
  unfold Transition.events. rewrite <- app_assoc. cbn [app].
  destruct (negb (String.eqb old_state_name (dest rule)));
    destruct (sticky (widget new_state)
              && String.eqb (widget_id (widget new_state))
                   (widget_id (widget old_state))) eqn:Hs;
    try rewrite (Hw eq_refl); reflexivity.
Qed.

End TransitionFacts.

(** The handler answers only if every lookup it performs succeeds: the
    hypotheses of [post_finished] and [post_continues] are necessary. *)
Lemma post_ok_inv env exploration_id escaped_state_name payload t v t' :
  FeedbackHandler.post env exploration_id escaped_state_name payload t
  = (Ok v, t') →
  ∃ exploration old_state n h rule old_widget,
    get_exploration_by_id env exploration_id = Some exploration
    ∧ states exploration !! unescape_state_name env escaped_state_name
      = Some old_state
    ∧ FeedbackHandler.p_block_number payload = Some n
    ∧ FeedbackHandler.p_state_history payload = Some h
    ∧ classify env exploration_id (unescape_state_name env escaped_state_name)
        (FeedbackHandler.p_handler payload) (FeedbackHandler.p_answer payload)
        (Transition.old_params payload) = Some rule
    ∧ get_widget_by_id env (INTERACTIVE_PREFIX env)
        (widget_id (widget old_state)) = Some old_widget
    ∧ (dest rule = END_DEST env
       ∨ dest rule ≠ END_DEST env
         ∧ ∃ new_state,
             states exploration !! dest rule = Some new_state
             ∧ (sticky (widget new_state)
                && String.eqb (widget_id (widget new_state))
                     (widget_id (widget old_state)) = false →
                is_Some (get_widget_by_id env (INTERACTIVE_PREFIX env)
                           (widget_id (widget new_state))))).
Proof.
  intros H. unfold FeedbackHandler.post in H.
  apply bind_inv in H as (e & t1 & He & H). apply call_inv in He as [He ->].
  apply bind_inv in H as (s & t1 & Hs & H). apply call_inv in Hs as [Hs ->].
  apply bind_inv in H as (n & t1 & Hn & H). apply call_inv in Hn as [Hn ->].
  apply bind_inv in H as (h & t1 & Hh & H). apply call_inv in Hh as [Hh ->].
  apply bind_inv in H as (r & t1 & Hr & H). apply call_inv in Hr as [Hr ->].
  apply bind_inv in H as (ns & t1 & Hns & H).
  apply bind_inv in H as (? & t2 & _ & H).
  apply bind_inv in H as (b & t3 & Hb & H).
  apply bind_inv in H as (? & t4 & _ & H).
  apply bind_inv in H as (w & t5 & Hw & H). apply call_inv in Hw as [Hw ->].
  apply bind_inv in H as (out & t6 & Hout & _).
  exists e, s, n, h, r, w. repeat (split; [assumption |]).
  unfold FeedbackHandler.post_new_state in Hns.
  destruct (String.eqb (dest r) (END_DEST env)) eqn:Hd.
  { left. by apply String.eqb_eq. }
  right. apply String.eqb_neq in Hd as Hne. split; [done |].
  apply bind_inv in Hns as (s' & ? & Hs' & Hns).
  apply call_inv in Hs' as [Hs' ->]. apply mret_inv in Hns as [-> ->].
  exists s'. split; [done |]. intros Hsticky.
  rewrite post_sticky_resolved in Hb. rewrite Hd in Hb.
  change (negb false) with true in Hb.
  rewrite andb_true_l, Hsticky in Hb.
  injection Hb as <- <-.
  unfold FeedbackHandler._append_content in Hout.
  apply bind_inv in Hout as (html & t7 & _ & Hout).
  apply bind_inv in Hout as (inter & t8 & Hinter & _).
  apply bind_inv in Hinter as (s'' & t9 & Hattr & Hinter).
  unfold attr in Hattr. apply call_inv in Hattr as [[= <-] ->].
  apply bind_inv in Hinter as (w' & t10 & Hw' & _).
  apply call_inv in Hw' as [Hw' _]. by exists w'.
Qed.

Lemma string_app_assoc (a b c : string) : (a +:+ b) +:+ c = a +:+ b +:+ c.
Proof.
  induction a as [|x a IH]; [reflexivity |].
  change (String x (a +:+ b) +:+ c = String x (a +:+ b +:+ c)).
  change (String x ((a +:+ b) +:+ c) = String x (a +:+ b +:+ c)).
  by rewrite IH.
Qed.

Lemma truthy_true (s : string) : truthy s = true ↔ s ≠ "".
Proof.
  unfold truthy. rewrite negb_true_iff. apply String.eqb_neq.
Qed.

Lemma str_in_elem_of (x : string) (l : list string) :
  str_in x l = true ↔ x ∈ l.
Proof.
  induction l as [|y l IH]; cbn.
  - split; [done | by intros ?%elem_of_nil].
  - rewrite elem_of_cons. destruct (String.eqb y x) eqn:E.
    + apply String.eqb_eq in E. split; [by left | done].
    + apply String.eqb_neq in E. rewrite IH. split; [by right |].
      intros [-> | ?]; done.
Qed.

(** Every answered submission is one of the two shapes above. *)
Lemma post_ok_cases env exploration_id escaped_state_name payload t v t' :
  FeedbackHandler.post env exploration_id escaped_state_name payload t
  = (Ok v, t') →
  ∃ exploration old_state n h rule old_widget,
    let old_state_name := unescape_state_name env escaped_state_name in
    let old_params := Transition.old_params payload in
    let feedback :=
      Transition.feedback_html env exploration_id payload rule in
    let values :=
      Transition.values env exploration_id payload old_state old_widget n h
        rule in
    get_exploration_by_id env exploration_id = Some exploration
    ∧ states exploration !! old_state_name = Some old_state
    ∧ FeedbackHandler.p_block_number payload = Some n
    ∧ FeedbackHandler.p_state_history payload = Some h
    ∧ classify env exploration_id old_state_name
        (FeedbackHandler.p_handler payload) (FeedbackHandler.p_answer payload)
        old_params = Some rule
    ∧ t' = t ++ Transition.events exploration_id old_state_name payload
                  old_state old_widget h rule
    ∧ (dest rule = END_DEST env ∧ v = values ∅ feedback ""
       ∨ dest rule ≠ END_DEST env
         ∧ ∃ new_state inter,
             let content :=
               Transition.state_html env exploration_id payload rule
                 new_state in
             states exploration !! dest rule = Some new_state
             ∧ (sticky (widget new_state)
                && String.eqb (widget_id (widget new_state))
                     (widget_id (widget old_state)) = true → inter = "")
             ∧ v = values
                     (update_with_state_params env exploration_id (dest rule)
                        old_params)
                     (if negb (String.eqb old_state_name (dest rule))
                      then (if truthy feedback && truthy content
                            then feedback +:+ "<br>" else feedback)
                           +:+ content
                      else feedback)
                     inter).
Proof.
  intros H.
  destruct (post_ok_inv _ _ _ _ _ _ _ H)
    as (e & s & n & h & r & w & He & Hs & Hn & Hh & Hr & Hw & Hd).
  exists e, s, n, h, r, w. cbv zeta. do 5 (split; [assumption |]).
  destruct Hd as [Hend | (Hne & ns & Hns & Hnw)].
  - rewrite (post_finished _ _ _ _ _ _ _ _ _ _ He Hs Hn Hh Hr Hw _ Hend) in H.
    injection H as <- <-. split; [done |]. by left.
  - destruct (sticky (widget ns)
              && String.eqb (widget_id (widget ns)) (widget_id (widget s)))
      eqn:Hsticky.
    + rewrite (post_continues _ _ _ _ _ _ _ _ _ _ He Hs Hn Hh Hr Hw ns w)
        in H; [| done | done | by rewrite Hsticky].
      injection H as <- <-. split; [done |]. right. split; [done |].
      eexists ns, _. cbv zeta. split; [done |]. split; [| reflexivity].
      by rewrite Hsticky.
    + destruct (Hnw eq_refl) as [w' Hw'].
      rewrite (post_continues _ _ _ _ _ _ _ _ _ _ He Hs Hn Hh Hr Hw ns w')
        in H; [| done | done | by rewrite Hsticky].
      injection H as <- <-. split; [done |]. right. split; [done |].
      eexists ns, _. cbv zeta. split; [done |]. split; [| reflexivity].
      by rewrite Hsticky.
Qed.

(** The handler answers exactly when its lookups succeed: the exploration,
    the origin state, the block number, the history, the classification,
    the origin widget and, unless the destination is the end sentinel, the
    destination state and (when the transition is not sticky) its widget. *)
Lemma post_answers_iff env exploration_id escaped_state_name payload t :
  (∃ v t',
     FeedbackHandler.post env exploration_id escaped_state_name payload t
     = (Ok v, t'))
  ↔ ∃ exploration old_state n h rule old_widget,
      get_exploration_by_id env exploration_id = Some exploration
      ∧ states exploration !! unescape_state_name env escaped_state_name
        = Some old_state
      ∧ FeedbackHandler.p_block_number payload = Some n
      ∧ FeedbackHandler.p_state_history payload = Some h
      ∧ classify env exploration_id
          (unescape_state_name env escaped_state_name)
          (FeedbackHandler.p_handler payload)
          (FeedbackHandler.p_answer payload)
          (Transition.old_params payload) = Some rule
      ∧ get_widget_by_id env (INTERACTIVE_PREFIX env)
          (widget_id (widget old_state)) = Some old_widget
      ∧ (dest rule = END_DEST env
         ∨ dest rule ≠ END_DEST env
           ∧ ∃ new_state,
               states exploration !! dest rule = Some new_state
               ∧ (sticky (widget new_state)
                  && String.eqb (widget_id (widget new_state))
                       (widget_id (widget old_state)) = false →
                  is_Some (get_widget_by_id env (INTERACTIVE_PREFIX env)
                             (widget_id (widget new_state))))).
Proof.
  split.
  - intros (v & t' & H). by eapply post_ok_inv.
  - intros (e & s & n & h & r & w & He & Hs & Hn & Hh & Hr & Hw & Hd).
    destruct Hd as [Hend | (Hne & ns & Hns & Hnw)].
    + eexists _, _.
      by apply (post_finished _ _ _ _ _ _ _ _ _ _ He Hs Hn Hh Hr Hw).
    + destruct (sticky (widget ns)
                && String.eqb (widget_id (widget ns)) (widget_id (widget s)))
        eqn:Hsticky.
      * eexists _, _.
        apply (post_continues _ _ _ _ _ _ _ _ _ _ He Hs Hn Hh Hr Hw ns w);
          [done | done | by rewrite Hsticky].
      * destruct (Hnw eq_refl) as [w' Hw']. eexists _, _.
        apply (post_continues _ _ _ _ _ _ _ _ _ _ He Hs Hn Hh Hr Hw ns w');
          [done | done | by rewrite Hsticky].
Qed.

Section TransitionClaims.
Import FeedbackHandler.
Variable env : Env.
Variables exploration_id escaped_state_name : string.
Variable payload : Payload.
Variable rule : Rule.
Variables t t' : list effect.
Variable v : Values.

Abbreviation origin := (unescape_state_name env escaped_state_name).

(** The request was classified to [rule] and answered with [v]. *)
Hypothesis Hrule :
  classify env exploration_id origin (p_handler payload) (p_answer payload)
    (Transition.old_params payload) = Some rule.
Hypothesis Hpost :
  post env exploration_id escaped_state_name payload t = (Ok v, t').

(** C2: for every answered submission with client-sent state history [h]
    and classified destination [d], the [state_history] of the response is
    [h] followed by [d]: one element longer, [h] kept in order as its
    prefix, [d] appended whether or not it already occurs in [h]. *)
Theorem post_state_history h :
  p_state_history payload = Some h →
  state_history v = h ++ [dest rule]
  ∧ length (state_history v) = S (length h)
  ∧ take (length h) (state_history v) = h
  ∧ last (state_history v) = Some (dest rule).
Proof.
  intros Hh.
  destruct (post_ok_cases _ _ _ _ _ _ _ Hpost)
    as (e & s & n & h' & r & w & _ & _ & _ & Hh' & Hr & _ & Hv).
  cbv zeta in *. fold origin in Hr.
  assert (r = rule) as -> by congruence.
  assert (h' = h) as -> by congruence.
  assert (state_history v = h ++ [dest rule]) as ->.
  { destruct Hv as [[_ ->] | (_ & ns & i & _ & _ & ->)]; reflexivity. }
  split; [done |]. split; [| split].
  - rewrite length_app. cbn. lia.
  - by rewrite take_app_length.
  - apply last_snoc.
Qed.

(** C6: the state-hit event recorded for the destination carries
    [is_first_visit = true] exactly when the destination does not occur in
    the client-sent history; the test reads the history as sent, before the
    destination is appended (after it, the flag would always be false).  A
    self-transition therefore records [false] exactly when the history the
    client sent holds the current state; the handler does not check that it
    does. *)
Theorem post_state_hit_first_visit h :
  p_state_history payload = Some h →
  ∃ first_visit answer_event,
    t' = t ++ [record_state_hit exploration_id (dest rule) first_visit;
               answer_event]
    ∧ (first_visit = true ↔ dest rule ∉ h)
    ∧ (dest rule = origin → (first_visit = false ↔ origin ∈ h)).
Proof.
  intros Hh.
  destruct (post_ok_cases _ _ _ _ _ _ _ Hpost)
    as (e & s & n & h' & r & w & _ & _ & _ & Hh' & Hr & Ht & _).
  cbv zeta in *. fold origin in Hr, Ht.
  assert (r = rule) as -> by congruence.
  assert (h' = h) as -> by congruence.
  eexists _, _. split; [exact Ht |]. split.
  - rewrite negb_true_iff, <- not_true_iff_false. by rewrite str_in_elem_of.
  - intros Hself. by rewrite negb_false_iff, str_in_elem_of, Hself.
Qed.

(** A self-transition does not always record [is_first_visit = false]:
    sent with an empty history, the reader's stay in [Intro] is recorded as
    a first visit. *)
Lemma post_self_transition_first_visit :
  ¬ ∀ env exploration_id escaped_state_name payload rule t v t'
      first_visit answer_event,
      classify env exploration_id (unescape_state_name env escaped_state_name)
        (p_handler payload) (p_answer payload) (Transition.old_params payload)
      = Some rule →
      post env exploration_id escaped_state_name payload t = (Ok v, t') →
      t' = t ++ [record_state_hit exploration_id (dest rule) first_visit;
                 answer_event] →
      dest rule = unescape_state_name env escaped_state_name →
      first_visit = false.
Proof.
  intros H.
  specialize (H Demo.env "eid" "Intro" (Demo.payload "again" 0 [])
                DemoRuns.again_rule []
                (DemoRuns.response Demo.intro "again" 0 [] DemoRuns.again_rule
                   (DemoRuns.params_after "again" "Intro") "Try again"
                   "<TextInput>")
                (DemoRuns.recorded "Intro" Demo.intro "again" 0 []
                   DemoRuns.again_rule)
                true
                (record_answer_submitted "eid" "Intro" (JStr "submit")
                   "again" "answer")).
  discriminate H; first [reflexivity | vm_compute; reflexivity].
Qed.

(** C4: when the classified rule leads to the end sentinel, the response
    has [finished = true], an empty [interactive_html], the rendered
    feedback alone as [oppia_html], and the empty mapping as [params]. *)
Theorem post_finished_response :
  dest rule = END_DEST env →
  finished v = true
  ∧ interactive_html v = ""
  ∧ oppia_html v
    = _get_feedback env exploration_id (get_feedback_string rule)
        (Transition.old_params payload)
  ∧ params v = ∅.
Proof.
  intros Hend.
  destruct (post_ok_cases _ _ _ _ _ _ _ Hpost)
    as (e & s & n & h & r & w & _ & _ & _ & _ & Hr & _ & Hv).
  cbv zeta in *. fold origin in Hr.
  assert (r = rule) as -> by congruence.
  destruct Hv as [[_ ->] | (Hne & _)]; [| done].
  cbn. by rewrite Hend, String.eqb_refl.
Qed.

Variable exploration : Exploration.
Hypothesis Hexploration :
  get_exploration_by_id env exploration_id = Some exploration.

(** C5: when the destination is not the end sentinel, [oppia_html] is the
    rendered feedback alone on a self-transition; otherwise it is the
    feedback followed by the destination state's rendered content, with a
    ["<br>"] between the two exactly when both are non-empty. *)
Theorem post_content_html new_state :
  dest rule ≠ END_DEST env →
  states exploration !! dest rule = Some new_state →
  let feedback :=
    _get_feedback env exploration_id (get_feedback_string rule)
      (Transition.old_params payload) in
  let state_content :=
    export_content_to_html env exploration_id (content new_state)
      (update_with_state_params env exploration_id (dest rule)
         (Transition.old_params payload)) in
  (dest rule = origin → oppia_html v = feedback)
  ∧ (dest rule ≠ origin →
     ∃ separator,
       oppia_html v = feedback +:+ separator +:+ state_content
       ∧ (separator = "<br>" ∨ separator = "")
       ∧ (separator = "<br>" ↔ feedback ≠ "" ∧ state_content ≠ "")).
Proof.
  intros Hne Hnew feedback state_content.
  destruct (post_ok_cases _ _ _ _ _ _ _ Hpost)
    as (e & s & n & h & r & w & He & _ & _ & _ & Hr & _ & Hv).
  cbv zeta in *. fold origin in Hr, Hv.
  assert (r = rule) as -> by congruence.
  assert (e = exploration) as -> by congruence.
  destruct Hv as [[Hend _] | (_ & ns & i & Hns & _ & ->)]; [done |].
  assert (ns = new_state) as -> by congruence.
  unfold Transition.values, Transition.state_html, Transition.feedback_html.
  cbn [oppia_html]. fold feedback state_content. split.
  - intros ->. by rewrite String.eqb_refl.
  - intros Hchanged. rewrite eqb_false_ne by done. cbn [negb].
    destruct (truthy feedback && truthy state_content) eqn:Hboth.
    + exists "<br>". rewrite string_app_assoc.
      apply andb_true_iff in Hboth as [Hf Hc].
      apply truthy_true in Hf, Hc. naive_solver.
    + exists "". split; [reflexivity |]. split; [by right |].
      split; [done |]. intros [Hf%truthy_true Hc%truthy_true].
      by rewrite Hf, Hc in Hboth.
Qed.

Variable old_state : State.
Hypothesis Hold_state : states exploration !! origin = Some old_state.

(** C3: the [sticky] flag computed for a submission is true exactly when
    the destination is not the end sentinel, the destination state's widget
    is flagged sticky and its widget id equals the origin state's widget
    id; and when it is true the response's [interactive_html] is empty. *)
Theorem post_sticky_flag :
  ∃ new_state flag,
    post_new_state env exploration (dest rule) t = (Ok new_state, t)
    ∧ (∀ t1, post_sticky env (dest rule) new_state old_state t1
             = (Ok flag, t1))
    ∧ (flag = true ↔
       dest rule ≠ END_DEST env
       ∧ ∃ destination,
           states exploration !! dest rule = Some destination
           ∧ sticky (widget destination) = true
           ∧ widget_id (widget destination) = widget_id (widget old_state))
    ∧ (flag = true → interactive_html v = "").
Proof.
  destruct (post_ok_cases _ _ _ _ _ _ _ Hpost)
    as (e & s & n & h & r & w & He & Hs & _ & _ & Hr & _ & Hv).
  cbv zeta in *. fold origin in Hr, Hs, Hv.
  assert (r = rule) as -> by congruence.
  assert (e = exploration) as -> by congruence.
  assert (s = old_state) as -> by congruence.
  destruct Hv as [[Hend _] | (Hne & ns & i & Hns & Hi & ->)].
  - exists None, false. unfold post_new_state, post_sticky.
    rewrite Hend, String.eqb_refl. cbn [negb].
    repeat split; try done. intros [? _]. done.
  - exists (Some ns),
      (sticky (widget ns)
       && String.eqb (widget_id (widget ns)) (widget_id (widget old_state))).
    split; [by apply post_new_state_resolved |]. split; [| split].
    + intros t1. rewrite post_sticky_resolved.
      by rewrite (eqb_false_ne _ _ Hne).
    + rewrite andb_true_iff, String.eqb_eq. split.
      * intros [? ?]. split; [done |]. by exists ns.
      * intros (_ & d & Hd & ? & ?).
        assert (d = ns) as -> by congruence. done.
    + intros Hflag. cbn. by apply Hi.
Qed.

End TransitionClaims.

(** A dereference of [None] is an [AttributeError]: the [sticky]
    conjunction would raise on a missing destination state if its first
    operand did not guard the access. *)
Lemma post_sticky_unguarded env d old_state t :
  d ≠ END_DEST env →
  FeedbackHandler.post_sticky env d None old_state t
  = (Raise AttributeError, t).
Proof.
  intros Hne. unfold FeedbackHandler.post_sticky.
  by rewrite (eqb_false_ne _ _ Hne).
Qed.

(** C10: when the classified destination is the end sentinel, the
    destination state is [None] and is never dereferenced: the [sticky]
    conjunction stops at the end-sentinel test, the finished branch of
    [_append_content] returns at once, and the handler answers instead of
    raising [AttributeError]. *)
Theorem post_end_dest_not_dereferenced
    env exploration_id escaped_state_name payload
    exploration old_state n h rule old_widget t :
  get_exploration_by_id env exploration_id = Some exploration →
  states exploration !! unescape_state_name env escaped_state_name
  = Some old_state →
  FeedbackHandler.p_block_number payload = Some n →
  FeedbackHandler.p_state_history payload = Some h →
  classify env exploration_id (unescape_state_name env escaped_state_name)
    (FeedbackHandler.p_handler payload) (FeedbackHandler.p_answer payload)
    (Transition.old_params payload) = Some rule →
  get_widget_by_id env (INTERACTIVE_PREFIX env) (widget_id (widget old_state))
  = Some old_widget →
  dest rule = END_DEST env →
  FeedbackHandler.post_new_state env exploration (dest rule) t = (Ok None, t)
  ∧ (∀ t1, FeedbackHandler.post_sticky env (dest rule) None old_state t1
           = (Ok false, t1))
  ∧ (∀ sticky old_params state_has_changed html_output t1,
       FeedbackHandler._append_content env exploration_id sticky
         (String.eqb (dest rule) (END_DEST env)) old_params None (dest rule)
         state_has_changed html_output t1
       = (Ok (∅, html_output, ""), t1))
  ∧ ∃ v t',
      FeedbackHandler.post env exploration_id escaped_state_name payload t
      = (Ok v, t').
Proof.
  intros He Hs Hn Hh Hr Hw Hend.
  unfold FeedbackHandler.post_new_state, FeedbackHandler.post_sticky,
    FeedbackHandler._append_content.
  rewrite Hend, String.eqb_refl. cbn [negb]. repeat split.
  eexists _, _.
  by apply (post_finished _ _ _ _ _ _ _ _ _ _ He Hs Hn Hh Hr Hw).
Qed.

(** ** The random exploration redirect *)

Section RandomFacts.
Variable env : Env.
Variable request_iframed : string.

(** The reader page of an exploration, as the handler builds its URL. *)
Abbreviation reader_page i :=
  (if String.eqb request_iframed "true"
   then ("/learn/" +:+ i) +:+ "?iframed=true" else "/learn/" +:+ i).

(** C9: with fewer than two public explorations the handler deletes and
    reloads the demo exploration ["1"] and redirects to its reader page;
    otherwise it redirects to the reader page of the exploration that the
    draw selects in the list without its first element: draw [k] selects
    position [k + 1] of the list, so that a uniform draw is a uniform choice
    among the explorations after index 0, and index 0 is never chosen. *)
Theorem random_exploration_redirect draw t :
  let explorations := get_public_explorations env in
  ((length explorations < 2)%nat →
   RandomExplorationPage.get env request_iframed draw t
   = (Ok (reader_page "1"), t ++ [delete_demo "1"; load_demo "1"]))
  ∧ ((2 ≤ length explorations)%nat →
     (draw < length (drop 1 explorations))%nat →
     ∃ e, drop 1 explorations !! draw = Some e
          ∧ explorations !! S draw = Some e
          ∧ RandomExplorationPage.get env request_iframed draw t
            = (Ok (reader_page (id e)), t)).
Proof.
  intros explorations. unfold RandomExplorationPage.get.
  fold explorations. split.
  - intros Hlen.
    assert ((length explorations <=? 1)%nat = true) as ->
      by (apply Nat.leb_le; lia).
    unfold mbind, M_bind, bind, emit, mret, M_ret, ret. cbn.
    by rewrite <- app_assoc.
  - intros Hlen Hdraw.
    assert ((length explorations <=? 1)%nat = false) as ->
      by (apply Nat.leb_gt; lia).
    destruct (lookup_lt_is_Some_2 _ _ Hdraw) as [e He].
    exists e. split; [done |]. split.
    + by rewrite lookup_drop in He.
    + unfold RandomExplorationPage.get_random_choice.
      unfold mbind, M_bind, bind, call, mret, M_ret, ret. by rewrite He.
Qed.

End RandomFacts.

(** ** The editor prerequisites handler *)



(** ** The unpublished lesson, seen by a logged-out reader *)

(** C1: the exploration page fails with NotFound when the id does not
    resolve and when the acting identity may not view the exploration; the
    init handler fails with NotFound only when the id does not resolve.  On
    the unpublished lesson ["eid"] and a logged-out reader the page is
    refused while the init handler serves the lesson's first state. *)
Theorem init_handler_ignores_view_permission :
  get_exploration_by_id Demo.env "eid" = Some Demo.lesson
  ∧ can_view Demo.env None "eid" = false
  ∧ ExplorationPage.get Demo.env None "" "eid" []
    = (Raise PageNotFoundException, [])
  ∧ ∃ v, ExplorationHandler.get Demo.env "eid" []
         = (Ok v, [record_state_hit "eid" "Intro" true])
         ∧ ExplorationHandler.oppia_html v = "Welcome"
         ∧ ExplorationHandler.title v = "A title".
Proof.
  split; [reflexivity |]. split; [reflexivity |]. split; [reflexivity |].
  destruct (ExplorationHandler_get_ok Demo.env "eid" Demo.lesson Demo.intro
              (Demo.the_widget "TextInput") [])
    as (v & Hv & _ & _ & _ & Htitle & Hhtml); [done | done | done |].
  exists v. split; [exact Hv |]. split; [exact Hhtml | exact Htitle].
Qed.

(** ** The handlers at work on the demo lesson *)

Example get_feedback_joins_lines :
  FeedbackHandler._get_feedback Demo.env "eid"
    ("Check your" +:+ String newline "spelling!") ∅
  = "Check your<br>spelling!".
Proof. reflexivity. Qed.

Example get_feedback_empty :
  FeedbackHandler._get_feedback Demo.env "eid" "" ∅ = "".
Proof. reflexivity. Qed.

Example split_trailing_separator :
  split newline ("a" +:+ String newline "") = ["a"; ""].
Proof. reflexivity. Qed.

Example random_redirect_resets_demo :
  RandomExplorationPage.get (Demo.env_with [Demo.other "0"]) "" 0 []
  = (Ok "/learn/1", [delete_demo "1"; load_demo "1"]).
Proof. reflexivity. Qed.

Example editor_may_view_page :
  ∃ v, ExplorationPage.get Demo.env (Some "editor") "true" "eid" []
       = (Ok v, []) ∧ ExplorationPage.iframed v = true.
Proof. eexists. split; reflexivity. Qed.

(** The cases of [profile_test.py]. *)
Example terms_refused_or_not_boolean :
  (EditorPrerequisitesHandler.post "editor"
     (EditorPrerequisitesHandler.mkPayload (Some (JBool false)) None) ∅).1
  = Raise (InvalidInputException "you will need to accept")
  ∧ (EditorPrerequisitesHandler.post "editor"
       (EditorPrerequisitesHandler.mkPayload
          (Some (JStr "Hasta la vista!")) None) ∅).1
    = Raise (InvalidInputException "you will need to accept").
Proof. split; reflexivity. Qed.

Example registered_editor_accepts_terms :
  EditorPrerequisitesHandler.post "editor"
    (EditorPrerequisitesHandler.mkPayload (Some (JBool true)) None)
    {["editor" := "abcde"]}
  = (Ok tt, {["editor" := "abcde"]})
  ∧ (EditorPrerequisitesHandler.post "editor"
       (EditorPrerequisitesHandler.mkPayload (Some (JBool false)) None)
       {["editor" := "abcde"]}).1
    = Raise (InvalidInputException "you will need to accept").
Proof. split; reflexivity. Qed.

Example username_cases :
  (EditorPrerequisitesHandler.post "editor"
     (EditorPrerequisitesHandler.mkPayload (Some (JBool true)) None) ∅).1
  = Raise (InvalidInputException "Empty username supplied")
  ∧ (EditorPrerequisitesHandler.post "editor"
       (EditorPrerequisitesHandler.mkPayload (Some (JBool true)) (Some ""))
       ∅).1
    = Raise (InvalidInputException "Empty username supplied")
  ∧ (EditorPrerequisitesHandler.post "editor"
       (EditorPrerequisitesHandler.mkPayload (Some (JBool true)) (Some "!a!"))
       ∅).1
    = Raise (InvalidInputException "can only have alphanumeric characters")
  ∧ (EditorPrerequisitesHandler.post "editor"
       (EditorPrerequisitesHandler.mkPayload (Some (JBool true))
          (Some "abcde")) ∅).1
    = Ok tt.
Proof. repeat split; reflexivity. Qed.

Lemma post_state_history_witness :
  FeedbackHandler.state_history DemoRuns.again = ["Intro"; "Intro"]
  ∧ length (FeedbackHandler.state_history DemoRuns.again) = 2%nat
  ∧ take 1 (FeedbackHandler.state_history DemoRuns.again) = ["Intro"]
  ∧ last (FeedbackHandler.state_history DemoRuns.again) = Some "Intro".
Proof.
  refine (post_state_history Demo.env "eid" "Intro"
            (Demo.payload "again" 0 ["Intro"]) DemoRuns.again_rule []
            (DemoRuns.recorded "Intro" Demo.intro "again" 0 ["Intro"]
               DemoRuns.again_rule)
            DemoRuns.again _ _ ["Intro"] _).
  - reflexivity.
  - vm_compute. reflexivity.
  - reflexivity.
Defined.

Lemma post_state_hit_first_visit_witness :
  ∃ first_visit answer_event,
    DemoRuns.recorded "Intro" Demo.intro "again" 0 ["Intro"]
      DemoRuns.again_rule
    = [] ++ [record_state_hit "eid" "Intro" first_visit; answer_event]
    ∧ (first_visit = true ↔ "Intro" ∉ ["Intro"])
    ∧ ("Intro" = "Intro" → (first_visit = false ↔ "Intro" ∈ ["Intro"])).
Proof.
  refine (post_state_hit_first_visit Demo.env "eid" "Intro"
            (Demo.payload "again" 0 ["Intro"]) DemoRuns.again_rule []
            (DemoRuns.recorded "Intro" Demo.intro "again" 0 ["Intro"]
               DemoRuns.again_rule)
            DemoRuns.again _ _ ["Intro"] _).
  - reflexivity.
  - vm_compute. reflexivity.
  - reflexivity.
Defined.

Lemma post_finished_response_witness :
  FeedbackHandler.finished DemoRuns.b_to_end = true
  ∧ FeedbackHandler.interactive_html DemoRuns.b_to_end = ""
  ∧ FeedbackHandler.oppia_html DemoRuns.b_to_end
    = FeedbackHandler._get_feedback Demo.env "eid" "Bye"
        (Transition.old_params
           (Demo.payload "end" 7 ["Intro"; "FormA"; "FormB"]))
  ∧ FeedbackHandler.params DemoRuns.b_to_end = ∅.
Proof.
  refine (post_finished_response Demo.env "eid" "FormB"
            (Demo.payload "end" 7 ["Intro"; "FormA"; "FormB"])
            DemoRuns.end_rule []
            (DemoRuns.recorded "FormB" Demo.form_b "end" 7
               ["Intro"; "FormA"; "FormB"] DemoRuns.end_rule)
            DemoRuns.b_to_end _ _ _).
  - reflexivity.
  - vm_compute. reflexivity.
  - reflexivity.
Defined.

Lemma post_content_html_witness :
  ("FormB" = "Intro" →
   FeedbackHandler.oppia_html DemoRuns.intro_to_b = "Good")
  ∧ ("FormB" ≠ "Intro" →
     ∃ separator,
       FeedbackHandler.oppia_html DemoRuns.intro_to_b
       = "Good" +:+ separator +:+ "Part B"
       ∧ (separator = "<br>" ∨ separator = "")
       ∧ (separator = "<br>" ↔ "Good" ≠ "" ∧ "Part B" ≠ "")).
Proof.
  refine (post_content_html Demo.env "eid" "Intro"
            (Demo.payload "b" 3 ["Intro"]) DemoRuns.b_rule []
            (DemoRuns.recorded "Intro" Demo.intro "b" 3 ["Intro"]
               DemoRuns.b_rule)
            DemoRuns.intro_to_b _ _ Demo.lesson _ Demo.form_b _ _).
  - reflexivity.
  - vm_compute. reflexivity.
  - reflexivity.
  - discriminate.
  - reflexivity.
Defined.

Lemma post_sticky_flag_witness :
  ∃ new_state flag,
    FeedbackHandler.post_new_state Demo.env Demo.lesson "FormB" []
    = (Ok new_state, [])
    ∧ (∀ t1, FeedbackHandler.post_sticky Demo.env "FormB" new_state
               Demo.form_a t1 = (Ok flag, t1))
    ∧ (flag = true ↔
       "FormB" ≠ "END"
       ∧ ∃ destination,
           states Demo.lesson !! "FormB" = Some destination
           ∧ sticky (widget destination) = true
           ∧ widget_id (widget destination) = "MultiForm")
    ∧ (flag = true → FeedbackHandler.interactive_html DemoRuns.a_to_b = "").
Proof.
  refine (post_sticky_flag Demo.env "eid" "FormA"
            (Demo.payload "b" 5 ["Intro"; "FormA"]) DemoRuns.b_rule []
            (DemoRuns.recorded "FormA" Demo.form_a "b" 5 ["Intro"; "FormA"]
               DemoRuns.b_rule)
            DemoRuns.a_to_b _ _ Demo.lesson _ Demo.form_a _).
  - reflexivity.
  - vm_compute. reflexivity.
  - reflexivity.
  - reflexivity.
Defined.

Lemma post_end_dest_not_dereferenced_witness :
  FeedbackHandler.post_new_state Demo.env Demo.lesson "END" [] = (Ok None, [])
  ∧ (∀ t1, FeedbackHandler.post_sticky Demo.env "END" None Demo.form_b t1
           = (Ok false, t1))
  ∧ (∀ sticky old_params state_has_changed html_output t1,
       FeedbackHandler._append_content Demo.env "eid" sticky
         (String.eqb "END" "END") old_params None "END"
         state_has_changed html_output t1
       = (Ok (∅, html_output, ""), t1))
  ∧ ∃ v t',
      FeedbackHandler.post Demo.env "eid" "FormB"
        (Demo.payload "end" 7 ["Intro"; "FormA"; "FormB"]) []
      = (Ok v, t').
Proof.
  refine (post_end_dest_not_dereferenced Demo.env "eid" "FormB"
            (Demo.payload "end" 7 ["Intro"; "FormA"; "FormB"])
            Demo.lesson Demo.form_b 7%Z ["Intro"; "FormA"; "FormB"]
            DemoRuns.end_rule (Demo.the_widget "MultiForm") []
            _ _ _ _ _ _ _); reflexivity.
Defined.

Lemma random_exploration_redirect_witness :
  RandomExplorationPage.get Demo.env "true" 1 []
  = (Ok "/learn/7?iframed=true", []).
Proof.
  destruct (random_exploration_redirect Demo.env "true" 1 []) as [_ H].
  destruct H as (e & He & _ & Hget); [cbn; lia | cbn; lia |].
  injection He as <-. exact Hget.
Defined.


(** * Further properties of the controllers *)

Lemma bind_raise_inv {A B} (c : M A) (k : A → M B) t e t' :
  (c ≫= k) t = (Raise e, t') →
  c t = (Raise e, t') ∨ ∃ a t1, c t = (Ok a, t1) ∧ k a t1 = (Raise e, t').
Proof.
  unfold mbind, M_bind, bind. destruct (c t) as [[a|e0] t1]; [eauto |].
  intros [= -> ->]. by left.
Qed.

Lemma call_raise_inv {A} (o : option A) e0 t e t' :
  call o e0 t = (Raise e, t') → o = None ∧ e = e0 ∧ t' = t.
Proof. destruct o; unfold call, ret, raise; [done |]. by intros [= -> ->]. Qed.

Lemma call_none {A} e t : call (None : option A) e t = (Raise e, t).
Proof. reflexivity. Qed.

(** ** The exploration page *)

(** X1: the exploration page answers exactly when the id resolves and the
    acting identity may view the exploration; every other request ends in
    [PageNotFoundException] and in no other exception.  The page
    records no event, and its [iframed] value is true only for the request
    parameter ["true"]. *)
Theorem ExplorationPage_get_answers_iff
    env user_id request_iframed exploration_id t :
  ∃ outcome,
    ExplorationPage.get env user_id request_iframed exploration_id t
    = (outcome, t)
    ∧ ((∃ exploration,
          get_exploration_by_id env exploration_id = Some exploration
          ∧ can_view env user_id exploration_id = true)
       ↔ ∃ v, outcome = Ok v)
    ∧ (∀ e, outcome = Raise e → e = PageNotFoundException)
    ∧ (∀ v, outcome = Ok v →
            (ExplorationPage.iframed v = true ↔ request_iframed = "true")).
Proof.
  destruct (get_exploration_by_id env exploration_id) as [ex|] eqn:He.
  - destruct (can_view env user_id exploration_id) eqn:Hv.
    + eexists. split; [by apply (ExplorationPage_get_ok _ _ _ _ ex) |].
      split; [| split].
      * split; [eauto | intros _; eauto].
      * intros e [=].
      * intros v [= <-]. cbn. apply String.eqb_eq.
    + eexists. split; [by apply (ExplorationPage_get_forbidden _ _ _ _ ex) |].
      split; [| split].
      * split; [intros (? & _ & [=]) | intros [? [=]]].
      * by intros e [= <-].
      * intros v [=].
  - eexists. split; [by apply ExplorationPage_get_unresolved |].
    split; [| split].
    + split; [intros (? & [=] & _) | intros [? [=]]].
    + by intros e [= <-].
    + intros v [=].
Qed.

(** ** The init handler *)

(** X2: whenever the init handler answers, the exploration, its initial
    state and that state's widget were found; the response starts the
    session at block 0 in the initial state, with a history holding just
    that state, the parameters and content rendered for it, and exactly one
    event is recorded: a first visit of the initial state. *)
Theorem ExplorationHandler_get_ok_inv env exploration_id t v t' :
  ExplorationHandler.get env exploration_id t = (Ok v, t') →
  ∃ exploration init_state interactive_widget,
    let reader_params :=
      update_with_state_params env exploration_id
        (init_state_name exploration) (get_init_params env exploration_id) in
    get_exploration_by_id env exploration_id = Some exploration
    ∧ states exploration !! init_state_name exploration = Some init_state
    ∧ get_widget_by_id env (INTERACTIVE_PREFIX env)
        (widget_id (widget init_state)) = Some interactive_widget
    ∧ t' = t ++ [record_state_hit exploration_id
                   (init_state_name exploration) true]
    ∧ ExplorationHandler.block_number v = 0%Z
    ∧ ExplorationHandler.state_name v = init_state_name exploration
    ∧ ExplorationHandler.state_history v = [ExplorationHandler.state_name v]
    ∧ ExplorationHandler.title v = title exploration
    ∧ ExplorationHandler.params v = reader_params
    ∧ ExplorationHandler.oppia_html v
      = export_content_to_html env exploration_id (content init_state)
          reader_params
    ∧ ExplorationHandler.interactive_html v
      = get_raw_code interactive_widget
          (customization_args (widget init_state)) reader_params.
Proof.
  intros H. unfold ExplorationHandler.get in H.
  apply bind_inv in H as (ex & t1 & Hex & H).
  unfold try_except in Hex.
  destruct (get_exploration_by_id env exploration_id) as [ex'|] eqn:He;
    [| discriminate].
  cbn in Hex. injection Hex as -> ->. cbv zeta in H.
  apply bind_inv in H as (s & t2 & Hs & H). apply call_inv in Hs as [Hs ->].
  apply bind_inv in H as (w & t3 & Hw & H). apply call_inv in Hw as [Hw ->].
  apply bind_inv in H as (? & t4 & Hev & H). injection Hev as _ <-.
  apply mret_inv in H as [-> ->].
  exists ex, s, w. cbv zeta. repeat split; assumption || reflexivity.
Qed.

(** X3: when the init handler fails it has recorded nothing, and the
    failure tells which lookup went wrong: [PageNotFoundException] for an
    id that does not resolve, [KeyError] for an exploration whose initial
    state is missing, the registry's error for an unknown widget. *)
Theorem ExplorationHandler_get_raise_inv env exploration_id t e t' :
  ExplorationHandler.get env exploration_id t = (Raise e, t') →
  t' = t
  ∧ (get_exploration_by_id env exploration_id = None
     ∧ e = PageNotFoundException
     ∨ ∃ exploration,
         get_exploration_by_id env exploration_id = Some exploration
         ∧ (states exploration !! init_state_name exploration = None
            ∧ e = KeyError
            ∨ ∃ init_state,
                states exploration !! init_state_name exploration
                = Some init_state
                ∧ get_widget_by_id env (INTERACTIVE_PREFIX env)
                    (widget_id (widget init_state)) = None
                ∧ e = ServiceError)).
Proof.
  intros H.
  destruct (get_exploration_by_id env exploration_id) as [ex|] eqn:He.
  2: { rewrite ExplorationHandler_get_unresolved in H by done.
       injection H as <- <-. split; [done |]. by left. }
  unfold ExplorationHandler.get in H.
  erewrite bind_ok in H; [| unfold try_except; by rewrite He].
  cbv beta zeta in H.
  apply bind_raise_inv in H as [H | (s & t1 & Hs & H)].
  { apply call_raise_inv in H as (Hs & -> & ->). split; [done |].
    right. exists ex. split; [done |]. by left. }
  apply call_inv in Hs as [Hs ->].
  apply bind_raise_inv in H as [H | (w & t1 & Hw & H)].
  { apply call_raise_inv in H as (Hw & -> & ->). split; [done |].
    right. exists ex. split; [done |]. right. by exists s. }
  apply call_inv in Hw as [Hw ->].
  apply bind_raise_inv in H as [H | (? & ? & _ & H)]; discriminate.
Qed.

(** ** Feedback rendering *)

Lemma split_nonempty sep s : split sep s ≠ [].
Proof.
  destruct s as [|a r]; cbn; [done |].
  destruct (Ascii.eqb a sep); [done |]. by destruct (split sep r).
Qed.

Lemma join_cons sep x y l :
  join sep (x :: y :: l) = x +:+ sep +:+ join sep (y :: l).
Proof. reflexivity. Qed.

(** Joining the pieces with the separator they were split at gives the
    string back. *)
Lemma join_split sep s : join (String sep "") (split sep s) = s.
Proof.
  induction s as [|a r IH]; [reflexivity |].
  cbn [split]. pose proof (split_nonempty sep r) as Hne.
  destruct (Ascii.eqb a sep) eqn:E.
  - apply Ascii.eqb_eq in E as ->.
    destruct (split sep r) as [|h tl]; [done |].
    rewrite join_cons, IH. reflexivity.
  - destruct (split sep r) as [|h tl]; [done |].
    destruct tl as [|h' tl].
    + cbn in *. by rewrite IH.
    + rewrite join_cons. rewrite join_cons in IH.
      change (String a h +:+ String sep "" +:+ join (String sep "") (h' :: tl))
        with (String a (h +:+ String sep "" +:+ join (String sep "") (h' :: tl))).
      by rewrite IH.
Qed.

Lemma split_free sep s : Forall (λ p, has_char sep p = false) (split sep s).
Proof.
  induction s as [|a r IH]; cbn [split].
  - by repeat constructor.
  - destruct (Ascii.eqb a sep) eqn:E.
    + by constructor.
    + destruct (split sep r) as [|h tl]; cbn.
      * repeat constructor. cbn. by rewrite E.
      * inversion IH as [|? ? Hh Htl]; subst. constructor; [| done].
        cbn. by rewrite E, Hh.
Qed.

Lemma has_char_app c a b :
  has_char c (a +:+ b) = has_char c a || has_char c b.
Proof.
  induction a as [|x a IH]; [reflexivity |].
  change (String x a +:+ b) with (String x (a +:+ b)).
  cbn [has_char]. by rewrite IH, orb_assoc.
Qed.

Lemma join_free c sep l :
  has_char c sep = false →
  Forall (λ p, has_char c p = false) l →
  has_char c (join sep l) = false.
Proof.
  intros Hsep. induction 1 as [|x l Hx Hl IH]; [reflexivity |].
  destruct l as [|y l]; [done |].
  rewrite join_cons, !has_char_app, Hx, Hsep, IH. reflexivity.
Qed.

Lemma split_without_separator sep s :
  has_char sep s = false → split sep s = [s].
Proof.
  induction s as [|a r IH]; [reflexivity |].
  cbn. intros [Ha Hr]%orb_false_iff. by rewrite Ha, (IH Hr).
Qed.

(** X4: the feedback of a rule is rendered as nothing when it is empty;
    otherwise as one text content in which every newline of the feedback
    has become ["<br>"]: the lines of the feedback, none of which holds a
    newline, give the feedback back when joined by newlines, and are
    exported joined by ["<br>"], so that no newline reaches the export.  A
    one-line feedback is exported as it is. *)
Theorem get_feedback_replaces_newlines env exploration_id feedback params :
  (feedback = "" →
   FeedbackHandler._get_feedback env exploration_id feedback params = "")
  ∧ (feedback ≠ "" →
     ∃ lines,
       join (String newline "") lines = feedback
       ∧ Forall (λ line, has_char newline line = false) lines
       ∧ has_char newline (join "<br>" lines) = false
       ∧ (has_char newline feedback = false → join "<br>" lines = feedback)
       ∧ FeedbackHandler._get_feedback env exploration_id feedback params
         = export_content_to_html env exploration_id
             [mkContent "text" (join "<br>" lines)] params).
Proof.
  unfold FeedbackHandler._get_feedback. split.
  - by intros ->.
  - intros Hne%truthy_true. rewrite Hne. cbn [negb].
    exists (split newline feedback). split; [apply join_split |].
    split; [apply split_free |]. split; [| split; [| reflexivity]].
    + apply join_free; [reflexivity | apply split_free].
    + intros Hfree. by rewrite split_without_separator.
Qed.

(** ** How a transition fails *)

Lemma post_new_state_end env exploration d t :
  d = END_DEST env →
  FeedbackHandler.post_new_state env exploration d t = (Ok None, t).
Proof.
  intros ->. unfold FeedbackHandler.post_new_state.
  by rewrite String.eqb_refl.
Qed.

Lemma post_new_state_unknown env exploration d t :
  d ≠ END_DEST env → states exploration !! d = None →
  FeedbackHandler.post_new_state env exploration d t = (Raise KeyError, t).
Proof.
  intros Hne Hd. unfold FeedbackHandler.post_new_state.
  rewrite (eqb_false_ne _ _ Hne). erewrite bind_raise; [done |].
  by rewrite Hd.
Qed.

Lemma post_new_state_cases env exploration d t :
  (∃ new_state,
     FeedbackHandler.post_new_state env exploration d t = (Ok new_state, t)
     ∧ destination_of env exploration d new_state)
  ∨ FeedbackHandler.post_new_state env exploration d t = (Raise KeyError, t)
    ∧ d ≠ END_DEST env ∧ states exploration !! d = None.
Proof.
  destruct (decide (d = END_DEST env)) as [Hend | Hne].
  - left. exists None. split; [by apply post_new_state_end |]. by left.
  - destruct (states exploration !! d) as [s|] eqn:Hs.
    + left. exists (Some s). split.
      * unfold FeedbackHandler.post_new_state.
        rewrite (eqb_false_ne _ _ Hne). erewrite bind_ok by by rewrite Hs.
        reflexivity.
      * right. split; [done |]. by exists s.
    + right. split; [by apply post_new_state_unknown | done].
Qed.

(** On a destination bound that way the [sticky] conjunction never
    raises. *)
Lemma post_sticky_total env exploration d new_state old_state t :
  destination_of env exploration d new_state →
  ∃ flag,
    FeedbackHandler.post_sticky env d new_state old_state t = (Ok flag, t).
Proof.
  intros [[-> ->] | (Hne & s & -> & _)]; unfold FeedbackHandler.post_sticky.
  - rewrite String.eqb_refl. by eexists.
  - rewrite (eqb_false_ne _ _ Hne). cbn [negb]. unfold attr.
    erewrite bind_ok by reflexivity.
    destruct (sticky (widget s)); by eexists.
Qed.

(** [_append_content] on such a destination fails only at the registry,
    and leaves the trace as it was. *)
Lemma append_content_cases
    env exploration exploration_id sticky old_params d new_state changed
    html t :
  destination_of env exploration d new_state →
  (∃ out,
     FeedbackHandler._append_content env exploration_id sticky
       (String.eqb d (END_DEST env)) old_params new_state d changed html t
     = (Ok out, t))
  ∨ FeedbackHandler._append_content env exploration_id sticky
      (String.eqb d (END_DEST env)) old_params new_state d changed html t
    = (Raise ServiceError, t).
Proof.
  intros [[-> ->] | (Hne & s & -> & _)];
    unfold FeedbackHandler._append_content.
  - rewrite String.eqb_refl. left. by eexists.
  - rewrite (eqb_false_ne _ _ Hne).
    unfold attr, call, mbind, M_bind, bind, mret, M_ret, ret, raise.
    destruct changed, sticky; cbn; eauto;
      destruct (get_widget_by_id env (INTERACTIVE_PREFIX env)
                  (widget_id (widget s))); eauto.
Qed.

Lemma destination_of_resolved env exploration d :
  d = END_DEST env ∨ is_Some (states exploration !! d) →
  ∃ new_state, destination_of env exploration d new_state.
Proof.
  intros Hd. destruct (decide (d = END_DEST env)) as [Hend | Hne].
  - exists None. by left.
  - destruct Hd as [? | [s Hs]]; [done |]. exists (Some s). right. eauto.
Qed.

Lemma post_new_state_destination env exploration d new_state t :
  destination_of env exploration d new_state →
  FeedbackHandler.post_new_state env exploration d t = (Ok new_state, t).
Proof.
  destruct (post_new_state_cases env exploration d t)
    as [(ns & Hns & Hd) | (_ & Hne & Hnone)].
  - intros Hd'. rewrite Hns. f_equal. f_equal.
    destruct Hd as [[? ->] | (? & s & -> & Hs)],
             Hd' as [[? ->] | (? & s' & -> & Hs')]; congruence.
  - intros [[? _] | (_ & s & _ & Hs)]; congruence.
Qed.

(** X6: when the origin state's widget is missing from the registry, the
    handler fails with the registry's error while appending the answer to
    the statistics log: the state hit of the destination has been recorded
    by then, the submitted answer has not, and no response is rendered. *)
Theorem post_origin_widget_missing
    env exploration_id escaped_state_name payload
    exploration old_state n h rule t :
  get_exploration_by_id env exploration_id = Some exploration →
  states exploration !! unescape_state_name env escaped_state_name
  = Some old_state →
  FeedbackHandler.p_block_number payload = Some n →
  FeedbackHandler.p_state_history payload = Some h →
  classify env exploration_id (unescape_state_name env escaped_state_name)
    (FeedbackHandler.p_handler payload) (FeedbackHandler.p_answer payload)
    (Transition.old_params payload) = Some rule →
  dest rule = END_DEST env ∨ is_Some (states exploration !! dest rule) →
  get_widget_by_id env (INTERACTIVE_PREFIX env) (widget_id (widget old_state))
  = None →
  FeedbackHandler.post env exploration_id escaped_state_name payload t
  = (Raise ServiceError,
     t ++ [record_state_hit exploration_id (dest rule)
             (negb (str_in (dest rule) h))]).
Proof.
  intros He Hs Hn Hh Hr Hd Hw.
  destruct (destination_of_resolved _ _ _ Hd) as [ns Hns].
  unfold FeedbackHandler.post. fold (Transition.old_params payload). mstep.
  erewrite bind_ok by (by apply post_new_state_destination).
  erewrite bind_ok by reflexivity.
  destruct (post_sticky_total env exploration (dest rule) ns old_state
              (t ++ [record_state_hit exploration_id (dest rule)
                       (negb (str_in (dest rule) h))]) Hns) as [b Hb].
  erewrite bind_ok by exact Hb.
  erewrite bind_raise; [done |].
  unfold FeedbackHandler._append_answer_to_stats_log.
  erewrite bind_raise; [done |]. by rewrite Hw.
Qed.


(** Every answered transition, with all that was looked up. *)
Lemma post_ok_full env exploration_id escaped_state_name payload t v t' :
  FeedbackHandler.post env exploration_id escaped_state_name payload t
  = (Ok v, t') →
  ∃ exploration old_state n h rule old_widget,
    get_exploration_by_id env exploration_id = Some exploration
    ∧ states exploration !! unescape_state_name env escaped_state_name
      = Some old_state
    ∧ FeedbackHandler.p_block_number payload = Some n
    ∧ FeedbackHandler.p_state_history payload = Some h
    ∧ classify env exploration_id (unescape_state_name env escaped_state_name)
        (FeedbackHandler.p_handler payload) (FeedbackHandler.p_answer payload)
        (Transition.old_params payload) = Some rule
    ∧ get_widget_by_id env (INTERACTIVE_PREFIX env)
        (widget_id (widget old_state)) = Some old_widget
    ∧ t' = t ++ Transition.events exploration_id
                  (unescape_state_name env escaped_state_name) payload
                  old_state old_widget h rule
    ∧ (dest rule = END_DEST env
       ∧ v = Transition.values env exploration_id payload old_state
               old_widget n h rule ∅
               (Transition.feedback_html env exploration_id payload rule) ""
       ∨ dest rule ≠ END_DEST env
         ∧ ∃ new_state w,
             states exploration !! dest rule = Some new_state
             ∧ (sticky (widget new_state)
                && String.eqb (widget_id (widget new_state))
                     (widget_id (widget old_state)) = false →
                get_widget_by_id env (INTERACTIVE_PREFIX env)
                  (widget_id (widget new_state)) = Some w)
             ∧ v = post_continues_values env exploration_id
                     (unescape_state_name env escaped_state_name) payload
                     old_state old_widget n h rule new_state w).
Proof.
  intros H.
  destruct (post_ok_inv _ _ _ _ _ _ _ H)
    as (e & s & n & h & r & w & He & Hs & Hn & Hh & Hr & Hw & Hd).
  exists e, s, n, h, r, w. do 6 (split; [assumption |]).
  destruct Hd as [Hend | (Hne & ns & Hns & Hnw)].
  - rewrite (post_finished _ _ _ _ _ _ _ _ _ _ He Hs Hn Hh Hr Hw _ Hend) in H.
    injection H as <- <-. split; [done |]. by left.
  - assert (∃ w', sticky (widget ns)
                  && String.eqb (widget_id (widget ns)) (widget_id (widget s))
                  = false →
                  get_widget_by_id env (INTERACTIVE_PREFIX env)
                    (widget_id (widget ns)) = Some w') as [w' Hw'].
    { destruct (sticky (widget ns)
                && String.eqb (widget_id (widget ns)) (widget_id (widget s))).
      - by exists w.
      - destruct (Hnw eq_refl) as [w' Hw']. by exists w'. }
    rewrite (post_continues _ _ _ _ _ _ _ _ _ _ He Hs Hn Hh Hr Hw ns w'
               t Hne Hns Hw') in H.
    injection H as <- <-. split; [done |]. right. split; [done |].
    by exists ns, w'.
Qed.

(** ** More on answered transitions *)

Section Answered.
Import FeedbackHandler.
Variable env : Env.
Variables exploration_id escaped_state_name : string.
Variable payload : Payload.
Variable rule : Rule.
Variables t t' : list effect.
Variable v : Values.

Abbreviation origin := (unescape_state_name env escaped_state_name).

Hypothesis Hrule :
  classify env exploration_id origin (p_handler payload) (p_answer payload)
    (Transition.old_params payload) = Some rule.
Hypothesis Hpost :
  post env exploration_id escaped_state_name payload t = (Ok v, t').

(** X10: an answered transition leaves the session consistent: the
    response names the destination as the current state and echoes the
    exploration id, the returned history ends in the current state, and
    [finished] is set exactly when the destination is the end sentinel. *)
Theorem post_session_invariant :
  state_name v = dest rule
  ∧ FeedbackHandler.exploration_id v = exploration_id
  ∧ last (state_history v) = Some (state_name v)
  ∧ (finished v = true ↔ dest rule = END_DEST env).
Proof.
  destruct (post_ok_cases _ _ _ _ _ _ _ Hpost)
    as (e & s & n & h & r & w & _ & _ & _ & _ & Hr & _ & Hv).
  cbv zeta in *. fold origin in Hr.
  assert (r = rule) as -> by congruence.
  assert (v = Transition.values env exploration_id payload s w n h rule
                (params v) (oppia_html v) (interactive_html v)) as ->.
  { destruct Hv as [[_ ->] | (_ & ns & i & _ & _ & ->)]; reflexivity. }
  cbn. split; [done |]. split; [done |]. split; [apply last_snoc |].
  apply String.eqb_eq.
Qed.

(** X13: unless the session is finished, the returned parameters are the
    destination state's update of the parameters the request was
    classified with: the client's parameters with the submitted answer
    stored under ["answer"], replacing any value the client sent under
    that key and leaving every other key as sent. *)
Theorem post_params_carry_answer :
  dest rule ≠ END_DEST env →
  let merged := Transition.old_params payload in
  params v = update_with_state_params env exploration_id (dest rule) merged
  ∧ merged !! "answer" = Some (p_answer payload)
  ∧ ∀ key, key ≠ "answer" →
           merged !! key = default ∅ (p_params payload) !! key.
Proof.
  intros Hne merged.
  destruct (post_ok_cases _ _ _ _ _ _ _ Hpost)
    as (e & s & n & h & r & w & _ & _ & _ & _ & Hr & _ & Hv).
  cbv zeta in *. fold origin in Hr.
  assert (r = rule) as -> by congruence.
  destruct Hv as [[Hend _] | (_ & ns & i & _ & _ & ->)]; [done |].
  split; [reflexivity |]. unfold merged, Transition.old_params.
  split; [apply lookup_insert_eq |].
  intros key Hkey. by apply lookup_insert_ne.
Qed.

Variable exploration : Exploration.
Variable old_state : State.
Variable old_widget : Widget.
Hypothesis Hexploration :
  get_exploration_by_id env exploration_id = Some exploration.
Hypothesis Hold_state : states exploration !! origin = Some old_state.
Hypothesis Hold_widget :
  get_widget_by_id env (INTERACTIVE_PREFIX env) (widget_id (widget old_state))
  = Some old_widget.

(** The answered transition, with the lookups named. *)
Lemma post_ok_named :
  ∃ n h,
    p_block_number payload = Some n
    ∧ p_state_history payload = Some h
    ∧ t' = t ++ Transition.events exploration_id origin payload old_state
                  old_widget h rule
    ∧ (dest rule = END_DEST env
       ∧ v = Transition.values env exploration_id payload old_state
               old_widget n h rule ∅
               (Transition.feedback_html env exploration_id payload rule) ""
       ∨ dest rule ≠ END_DEST env
         ∧ ∃ new_state w,
             states exploration !! dest rule = Some new_state
             ∧ (sticky (widget new_state)
                && String.eqb (widget_id (widget new_state))
                     (widget_id (widget old_state)) = false →
                get_widget_by_id env (INTERACTIVE_PREFIX env)
                  (widget_id (widget new_state)) = Some w)
             ∧ v = post_continues_values env exploration_id origin payload
                     old_state old_widget n h rule new_state w).
Proof.
  destruct (post_ok_full _ _ _ _ _ _ _ Hpost)
    as (e & s & n & h & r & w & He & Hs & Hn & Hh & Hr & Hw & Ht & Hv).
  fold origin in Hr, Hs, Ht, Hv.
  assert (r = rule) as -> by congruence.
  assert (e = exploration) as -> by congruence.
  assert (s = old_state) as -> by congruence.
  assert (w = old_widget) as -> by congruence.
  by exists n, h.
Qed.

(** X9: an answered transition records exactly two events, in this order:
    the state hit of the destination, then the submitted answer, logged
    against the origin state with the request's handler name, the rule's
    description and the answer as the origin widget renders it for the
    statistics log, from the parameters that hold the answer. *)
Theorem post_records_hit_then_answer h :
  p_state_history payload = Some h →
  t' = t ++ [ record_state_hit exploration_id (dest rule)
                (negb (str_in (dest rule) h));
              record_answer_submitted exploration_id origin
                (p_handler payload) (rule_str rule)
                (get_stats_log_html old_widget
                   (customization_args (widget old_state))
                   (Transition.old_params payload) (p_answer payload)) ]
  ∧ length t' = (length t + 2)%nat.
Proof.
  intros Hh. destruct post_ok_named as (n & h' & _ & Hh' & -> & _).
  assert (h' = h) as -> by congruence.
  split; [reflexivity |]. rewrite length_app. reflexivity.
Qed.

(** X11: the acknowledgement of the reader's answer is always rendered,
    by the origin state's widget from its customization and the parameters
    holding the answer, whether the session goes on, stays on a sticky
    widget or is finished. *)
Theorem post_reader_response :
  (reader_response_html v, reader_response_iframe v)
  = get_reader_response_html old_widget
      (customization_args (widget old_state))
      (Transition.old_params payload) (p_answer payload).
Proof.
  destruct post_ok_named as (n & h & _ & _ & _ & Hv).
  destruct Hv as [[_ ->] | (_ & ns & w & _ & _ & ->)];
    cbn; by destruct (get_reader_response_html _ _ _ _).
Qed.

(** X12: when the session goes on and the transition is not sticky (the
    destination widget is not flagged sticky, or is another widget than
    the origin's), the interaction is rendered anew: by the destination
    state's widget, from its customization and the returned parameters. *)
Theorem post_renders_destination_widget new_state w :
  dest rule ≠ END_DEST env →
  states exploration !! dest rule = Some new_state →
  sticky (widget new_state)
  && String.eqb (widget_id (widget new_state)) (widget_id (widget old_state))
  = false →
  get_widget_by_id env (INTERACTIVE_PREFIX env) (widget_id (widget new_state))
  = Some w →
  interactive_html v
  = get_raw_code w (customization_args (widget new_state)) (params v).
Proof.
  intros Hne Hns Hsticky Hw.
  destruct post_ok_named as (n & h & _ & _ & _ & Hv).
  destruct Hv as [[Hend _] | (_ & ns & w' & Hns' & Hw' & ->)]; [done |].
  assert (ns = new_state) as -> by congruence.
  specialize (Hw' Hsticky). assert (w' = w) as -> by congruence.
  unfold post_continues_values. cbn. by rewrite Hsticky.
Qed.

(** X14: a reader who stays in a state whose widget is sticky gets
    nothing rendered anew: the response carries the feedback alone and an
    empty [interactive_html]. *)
Theorem post_sticky_self_loop :
  dest rule = origin →
  origin ≠ END_DEST env →
  sticky (widget old_state) = true →
  interactive_html v = ""
  ∧ oppia_html v
    = _get_feedback env exploration_id (get_feedback_string rule)
        (Transition.old_params payload).
Proof.
  intros Hself Hne Hsticky.
  destruct post_ok_named as (n & h & _ & _ & _ & Hv).
  destruct Hv as [[Hend _] | (_ & ns & w' & Hns' & _ & ->)]; [congruence |].
  rewrite Hself in Hns'. assert (ns = old_state) as -> by congruence.
  unfold post_continues_values. cbn.
  by rewrite Hself, Hsticky, !String.eqb_refl.
Qed.

End Answered.

(** What an answer of the init handler always looks like. *)
Lemma ExplorationHandler_get_ok_trace env exploration_id t v t' :
  ExplorationHandler.get env exploration_id t = (Ok v, t') →
  t' = t ++ [record_state_hit exploration_id
               (ExplorationHandler.state_name v) true]
  ∧ ExplorationHandler.block_number v = 0%Z
  ∧ ExplorationHandler.state_history v = [ExplorationHandler.state_name v].
Proof.
  intros H. unfold ExplorationHandler.get in H.
  apply bind_inv in H as (ex & t1 & Hex & H). cbv zeta in H.
  assert (t1 = t) as ->.
  { unfold try_except in Hex.
    destruct (get_exploration_by_id env exploration_id); [| discriminate].
    by injection Hex as _ <-. }
  apply bind_inv in H as (s & t2 & Hs & H). apply call_inv in Hs as [_ ->].
  apply bind_inv in H as (w & t3 & Hw & H). apply call_inv in Hw as [_ ->].
  apply bind_inv in H as (? & t4 & Hev & H). injection Hev as _ <-.
  by apply mret_inv in H as [-> ->].
Qed.

(** ** The end-to-end test case *)

Section EndToEnd.
Import ReaderControllerEndToEndTests.
Variable env : Env.
Variable regex_search : string → string → bool.

Lemma T_bind_inv {A B} (c : T A) (k : A → T B) t b t' :
  (c ≫= k) t = (inr b, t') → ∃ a t1, c t = (inr a, t1) ∧ k a t1 = (inr b, t').
Proof.
  unfold mbind, T_bind. destruct (c t) as [[f|a] t1]; [done | eauto].
Qed.

Lemma T_bind_fail_inv {A B} (c : T A) (k : A → T B) t f t' :
  (c ≫= k) t = (inl f, t') →
  c t = (inl f, t') ∨ ∃ a t1, c t = (inr a, t1) ∧ k a t1 = (inl f, t').
Proof.
  unfold mbind, T_bind. destruct (c t) as [[f0|a] t1]; [| eauto].
  intros [= -> ->]. by left.
Qed.

Lemma request_inv {A} (c : M A) t a t' :
  request c t = (inr a, t') → c t = (Ok a, t').
Proof. unfold request. destruct (c t) as [[?|?] ?]; by intros [= -> ->]. Qed.

Lemma request_fail_inv {A} (c : M A) t f t' :
  request c t = (inl f, t') → ∃ e, f = HandlerError e ∧ c t = (Raise e, t').
Proof.
  unfold request. destruct (c t) as [[?|e] ?]; [done |].
  intros [= <- <-]. by exists e.
Qed.

Lemma assertEqual_inv {A} `{EqDecision A} (x y : A) t u t' :
  assertEqual x y t = (inr u, t') → x = y ∧ t' = t.
Proof. unfold assertEqual. case_decide; by intros [= _ <-]. Qed.

Lemma assertEqual_fail_inv {A} `{EqDecision A} (x y : A) t f t' :
  assertEqual x y t = (inl f, t') → x ≠ y ∧ f = AssertionError ∧ t' = t.
Proof. unfold assertEqual. case_decide; [done |]. by intros [= <- <-]. Qed.

(** The payload [_submit_answer] posts. *)
Abbreviation posted self answer :=
  {| FeedbackHandler.p_answer := answer;
     FeedbackHandler.p_block_number := Some (last_block_number self);
     FeedbackHandler.p_handler := JStr "submit";
     FeedbackHandler.p_params := Some (last_params self);
     FeedbackHandler.p_state_history := Some (state_history self) |}.

(** What the server answers to the test case's request. *)
Lemma posted_response self answer t v t' :
  FeedbackHandler.post env (exploration_id self) (last_state_name self)
    (posted self answer) t = (Ok v, t') →
  FeedbackHandler.state_history v
  = state_history self ++ [FeedbackHandler.state_name v]
  ∧ FeedbackHandler.block_number v = (last_block_number self + 1)%Z
  ∧ length t' = (length t + 2)%nat.
Proof.
  intros H.
  destruct (post_ok_full _ _ _ _ _ _ _ H)
    as (e & s & n & h & r & w & _ & _ & Hn & Hh & _ & _ & -> & Hv).
  cbn in Hn, Hh. injection Hn as <-. injection Hh as <-.
  split; [| split].
  - destruct Hv as [[_ ->] | (_ & ns & w' & _ & _ & ->)]; reflexivity.
  - destruct Hv as [[_ ->] | (_ & ns & w' & _ & _ & ->)]; reflexivity.
  - rewrite length_app. reflexivity.
Qed.

(** A submission that passes, seen from the test case. *)
Lemma submit_answer_step self answer t self' reader_dict t' :
  _submit_answer env self answer t = (inr (self', reader_dict), t') →
  state_history self' = state_history self ++ [last_state_name self']
  ∧ last_block_number self' = (last_block_number self + 1)%Z
  ∧ exploration_id self' = exploration_id self
  ∧ length t' = (length t + 2)%nat.
Proof.
  intros H. unfold _submit_answer in H.
  apply T_bind_inv in H as (v' & t1 & Hv & H).
  apply request_inv, posted_response in Hv as (Hh & Hn & Hlen).
  cbv zeta in H.
  apply T_bind_inv in H as (? & ? & Heq & H).
  apply assertEqual_inv in Heq as [_ ->].
  injection H as <- <- <-. cbn. by rewrite Hn.
Qed.

(** The test case as [init_player] leaves it. *)
Lemma init_player_start
    exploration_id expected_title expected_response t self t' :
  init_player env regex_search exploration_id expected_title
    expected_response t = (inr self, t') →
  ReaderControllerEndToEndTests.exploration_id self = exploration_id
  ∧ last_block_number self = 0%Z
  ∧ state_history self = [last_state_name self]
  ∧ length t' = (length t + 3)%nat.
Proof.
  intros H. unfold init_player in H.
  apply T_bind_inv in H as (? & t1 & H1 & H).
  apply request_inv in H1. injection H1 as _ <-.
  apply T_bind_inv in H as (? & t2 & H2 & H).
  apply request_inv in H2. injection H2 as _ <-.
  apply T_bind_inv in H as (v & t3 & Hv & H). apply request_inv in Hv.
  cbv zeta in H.
  apply T_bind_inv in H as (? & t4 & Hh & H).
  apply assertEqual_inv in Hh as [Hh ->].
  apply T_bind_inv in H as (? & t5 & Hre & H).
  apply T_bind_inv in H as (? & t6 & Htitle & H).
  injection H as <- <-.
  destruct (ExplorationHandler_get_ok_trace _ _ _ _ _ Hv) as (Ht & Hb & _).
  cbn. repeat split; [done |].
  unfold assertRegexpMatches in Hre.
  destruct (regex_search _ _); [| done]. injection Hre as _ <-.
  unfold assertEqual in Htitle. case_decide; [| done].
  injection Htitle as _ <-.
  rewrite Ht, !length_app. cbn. lia.
Qed.

(** X15: the assertion of [_submit_answer] cannot fail: whenever the
    server answers, the history it returns is the history the test case
    keeps for itself.  The submission then leaves the test case one block
    further, in the state the server names, with that state appended to
    its history, and two events recorded; a submission fails only by an
    exception of the handler. *)
Theorem submit_answer_assertion_holds self answer t outcome t' :
  _submit_answer env self answer t = (outcome, t') →
  outcome ≠ inl AssertionError
  ∧ ∀ self' reader_dict,
      outcome = inr (self', reader_dict) →
      state_history self' = FeedbackHandler.state_history reader_dict
      ∧ state_history self' = state_history self ++ [last_state_name self']
      ∧ last_block_number self' = (last_block_number self + 1)%Z
      ∧ exploration_id self' = exploration_id self
      ∧ length t' = (length t + 2)%nat.
Proof.
  intros H. unfold _submit_answer in H. split.
  - intros ->.
    apply T_bind_fail_inv in H as [H | (v & t1 & Hv & H)].
    { apply request_fail_inv in H as (e & [=] & _). }
    apply request_inv, posted_response in Hv as (Hh & _ & _).
    cbv zeta in H.
    apply T_bind_fail_inv in H as [H | (? & ? & _ & [=])].
    apply assertEqual_fail_inv in H as (Hne & _). by cbn in Hne.
  - intros self' v ->.
    apply T_bind_inv in H as (v' & t1 & Hv & H).
    apply request_inv, posted_response in Hv as (Hh & Hn & Hlen).
    cbv zeta in H.
    apply T_bind_inv in H as (? & ? & Heq & H).
    apply assertEqual_inv in Heq as [_ ->].
    injection H as <- <- <-. cbn. by rewrite Hh, Hn.
Qed.

Lemma assertRegexpMatches_inv text regex t u t' :
  assertRegexpMatches regex_search text regex t = (inr u, t') →
  regex_search regex text = true ∧ t' = t.
Proof.
  unfold assertRegexpMatches. destruct (regex_search regex text);
    by intros [= _ <-].
Qed.

(** X16: when [init_player] passes, the test case starts at block 0 with
    a history holding just the state the server named, the demo
    exploration has been deleted and loaded again before the request, and
    the server has recorded a first visit of that state; the content
    matched the expected pattern and the title is the expected one. *)
Theorem init_player_passes
    exploration_id expected_title expected_response t self t' :
  init_player env regex_search exploration_id expected_title
    expected_response t = (inr self, t') →
  ∃ reader_dict,
    ExplorationHandler.get env exploration_id
      (t ++ [delete_demo exploration_id; load_demo exploration_id])
    = (Ok reader_dict, t')
    ∧ t' = t ++ [delete_demo exploration_id; load_demo exploration_id;
                 record_state_hit exploration_id (last_state_name self) true]
    ∧ ReaderControllerEndToEndTests.exploration_id self = exploration_id
    ∧ last_block_number self = 0%Z
    ∧ state_history self = [last_state_name self]
    ∧ state_history self = ExplorationHandler.state_history reader_dict
    ∧ last_params self = ExplorationHandler.params reader_dict
    ∧ regex_search expected_response (ExplorationHandler.oppia_html reader_dict)
      = true
    ∧ ExplorationHandler.title reader_dict = expected_title.
Proof.
  intros H. unfold init_player in H.
  apply T_bind_inv in H as (? & t1 & H1 & H).
  apply request_inv in H1. injection H1 as _ <-.
  apply T_bind_inv in H as (? & t2 & H2 & H).
  apply request_inv in H2. injection H2 as _ <-.
  apply T_bind_inv in H as (v & t3 & Hv & H). apply request_inv in Hv.
  cbv zeta in H.
  apply T_bind_inv in H as (? & t4 & Hh & H).
  apply assertEqual_inv in Hh as [Hh ->].
  apply T_bind_inv in H as (? & t5 & Hre & H).
  apply assertRegexpMatches_inv in Hre as [Hre ->].
  apply T_bind_inv in H as (? & t6 & Htitle & H).
  apply assertEqual_inv in Htitle as [Htitle ->].
  injection H as <- <-. rewrite <- app_assoc in Hv. cbn [app] in Hv.
  exists v. split; [exact Hv |].
  destruct (ExplorationHandler_get_ok_trace _ _ _ _ _ Hv) as (Ht & Hb & _).
  cbn. split.
  { rewrite Ht, <- app_assoc. reflexivity. }
  by repeat split.
Qed.

(** A run of submissions that passes moves the test case on by one block
    and one history entry per submission. *)
Lemma submit_all_passes steps : ∀ self t self' t',
  submit_all env regex_search self steps t = (inr self', t') →
  last_block_number self'
  = (last_block_number self + Z.of_nat (length steps))%Z
  ∧ length (state_history self')
    = (length (state_history self) + length steps)%nat
  ∧ (last (state_history self) = Some (last_state_name self) →
     last (state_history self') = Some (last_state_name self'))
  ∧ take (length (state_history self)) (state_history self')
    = state_history self
  ∧ ReaderControllerEndToEndTests.exploration_id self'
    = ReaderControllerEndToEndTests.exploration_id self
  ∧ length t' = (length t + 2 * length steps)%nat.
Proof.
  induction steps as [|[answer expected] steps IH]; intros self t self' t' H.
  - cbn in H. injection H as <- <-. cbn.
    rewrite Z.add_0_r, Nat.add_0_r, firstn_all. by repeat split; try lia.
  - cbn [submit_all] in H.
    apply T_bind_inv in H as (mid & t1 & Hstep & H).
    unfold submit_and_compare in Hstep.
    apply T_bind_inv in Hstep as ([mid' v] & t2 & Hsub & Hstep).
    apply T_bind_inv in Hstep as (? & t3 & Hre & Hstep).
    apply assertRegexpMatches_inv in Hre as [_ ->].
    injection Hstep as <- <-. cbn [fst] in H.
    destruct (submit_answer_step _ _ _ _ _ _ Hsub)
      as (Hhist & Hblock & Hid & Hlen).
    destruct (IH _ _ _ _ H) as (IHb & IHl & IHlast & IHtake & IHid & IHt).
    rewrite Hhist in IHl, IHlast, IHtake. rewrite length_app in IHl, IHtake.
    cbn [length] in *. repeat split.
    + lia.
    + lia.
    + intros _. apply IHlast. apply last_snoc.
    + apply (f_equal (take (length (state_history self)))) in IHtake.
      rewrite take_take in IHtake.
      rewrite Nat.min_l in IHtake by lia.
      by rewrite take_app_length in IHtake.
    + congruence.
    + lia.
Qed.

(** X17: a test that passes after [init_player] and [k] submissions
    leaves the test case at block [k], with a history of [k + 1] states
    that ends in the current state, on the exploration it started, and the
    server has recorded the demo reload, the first visit and two events
    per submission. *)
Theorem play_passes
    exploration_id expected_title expected_response steps t self t' :
  play env regex_search exploration_id expected_title expected_response
    steps t = (inr self, t') →
  last_block_number self = Z.of_nat (length steps)
  ∧ length (state_history self) = S (length steps)
  ∧ last (state_history self) = Some (last_state_name self)
  ∧ ReaderControllerEndToEndTests.exploration_id self = exploration_id
  ∧ length t' = (length t + 3 + 2 * length steps)%nat.
Proof.
  intros H. unfold play in H.
  apply T_bind_inv in H as (start & t1 & Hinit & H).
  destruct (init_player_start _ _ _ _ _ _ Hinit)
    as (Hid & Hb & Hh & Ht).
  destruct (submit_all_passes _ _ _ _ _ H)
    as (Hblock & Hlen & Hlast & _ & Hid' & Ht').
  rewrite Hh in Hlen, Hlast. cbn [length] in Hlen.
  repeat split; try lia; try congruence.
  by apply Hlast.
Qed.

End EndToEnd.

(** ** The further properties at work on the demo lesson *)

Lemma ExplorationHandler_get_ok_inv_witness :
  ExplorationHandler.state_history DemoSession.init
  = [ExplorationHandler.state_name DemoSession.init]
  ∧ ExplorationHandler.block_number DemoSession.init = 0%Z.
Proof.
  destruct (ExplorationHandler_get_ok_inv Demo.env "eid" [] DemoSession.init
              [record_state_hit "eid" "Intro" true])
    as (e & s & w & _ & _ & _ & _ & Hb & _ & Hh & _).
  - vm_compute. reflexivity.
  - split; [exact Hh | exact Hb].
Defined.

Lemma ExplorationHandler_get_raise_inv_witness :
  ([] : list effect) = []
  ∧ (get_exploration_by_id Demo.env "nope" = None
     ∧ PageNotFoundException = PageNotFoundException
     ∨ ∃ exploration,
         get_exploration_by_id Demo.env "nope" = Some exploration
         ∧ (states exploration !! init_state_name exploration = None
            ∧ PageNotFoundException = KeyError
            ∨ ∃ init_state,
                states exploration !! init_state_name exploration
                = Some init_state
                ∧ get_widget_by_id Demo.env "interactive"
                    (widget_id (widget init_state)) = None
                ∧ PageNotFoundException = ServiceError)).
Proof.
  apply (ExplorationHandler_get_raise_inv Demo.env "nope" []
           PageNotFoundException []).
  reflexivity.
Defined.

Lemma post_origin_widget_missing_witness :
  FeedbackHandler.post (Faulty.env "MultiForm") "eid" "FormA"
    (Demo.payload "intro" 5 ["Intro"; "FormA"]) []
  = (Raise ServiceError, [record_state_hit "eid" "Intro" false]).
Proof.
  refine (post_origin_widget_missing (Faulty.env "MultiForm") "eid" "FormA"
            (Demo.payload "intro" 5 ["Intro"; "FormA"]) Demo.lesson
            Demo.form_a 5%Z ["Intro"; "FormA"] (mkRule "Intro" "" "intro") []
            _ _ _ _ _ _ _); try reflexivity.
  right. by eexists.
Defined.


Lemma post_session_invariant_witness :
  FeedbackHandler.state_name DemoRuns.b_to_end = "END"
  ∧ FeedbackHandler.exploration_id DemoRuns.b_to_end = "eid"
  ∧ last (FeedbackHandler.state_history DemoRuns.b_to_end)
    = Some (FeedbackHandler.state_name DemoRuns.b_to_end)
  ∧ (FeedbackHandler.finished DemoRuns.b_to_end = true ↔ "END" = "END").
Proof.
  refine (post_session_invariant Demo.env "eid" "FormB"
            (Demo.payload "end" 7 ["Intro"; "FormA"; "FormB"])
            DemoRuns.end_rule []
            (DemoRuns.recorded "FormB" Demo.form_b "end" 7
               ["Intro"; "FormA"; "FormB"] DemoRuns.end_rule)
            DemoRuns.b_to_end _ _).
  - reflexivity.
  - vm_compute. reflexivity.
Defined.

Lemma post_params_carry_answer_witness :
  FeedbackHandler.params DemoRuns.intro_to_b !! "answer" = Some (JStr "b")
  ∧ FeedbackHandler.params DemoRuns.intro_to_b !! "state"
    = Some (JStr "FormB").
Proof.
  destruct (post_params_carry_answer Demo.env "eid" "Intro"
              (Demo.payload "b" 3 ["Intro"]) DemoRuns.b_rule []
              (DemoRuns.recorded "Intro" Demo.intro "b" 3 ["Intro"]
                 DemoRuns.b_rule)
              DemoRuns.intro_to_b) as (Hp & _ & _).
  - reflexivity.
  - vm_compute. reflexivity.
  - discriminate.
  - rewrite Hp. split; reflexivity.
Defined.

Lemma post_records_hit_then_answer_witness :
  DemoRuns.recorded "Intro" Demo.intro "b" 3 ["Intro"] DemoRuns.b_rule
  = [] ++ [ record_state_hit "eid" "FormB" true;
            record_answer_submitted "eid" "Intro" (JStr "submit") "b"
              "answer" ]
  ∧ length (DemoRuns.recorded "Intro" Demo.intro "b" 3 ["Intro"]
              DemoRuns.b_rule) = 2%nat.
Proof.
  refine (post_records_hit_then_answer Demo.env "eid" "Intro"
            (Demo.payload "b" 3 ["Intro"]) DemoRuns.b_rule []
            (DemoRuns.recorded "Intro" Demo.intro "b" 3 ["Intro"]
               DemoRuns.b_rule)
            DemoRuns.intro_to_b _ _ Demo.lesson Demo.intro
            (Demo.the_widget "TextInput") _ _ _ ["Intro"] _);
    first [reflexivity | vm_compute; reflexivity].
Defined.

Lemma post_reader_response_witness :
  (FeedbackHandler.reader_response_html DemoRuns.a_to_b,
   FeedbackHandler.reader_response_iframe DemoRuns.a_to_b)
  = ("You answered", "").
Proof.
  refine (post_reader_response Demo.env "eid" "FormA"
            (Demo.payload "b" 5 ["Intro"; "FormA"]) DemoRuns.b_rule []
            (DemoRuns.recorded "FormA" Demo.form_a "b" 5 ["Intro"; "FormA"]
               DemoRuns.b_rule)
            DemoRuns.a_to_b _ _ Demo.lesson Demo.form_a
            (Demo.the_widget "MultiForm") _ _ _);
    first [reflexivity | vm_compute; reflexivity].
Defined.

Lemma post_renders_destination_widget_witness :
  FeedbackHandler.interactive_html DemoRuns.intro_to_b = "<MultiForm>".
Proof.
  refine (post_renders_destination_widget Demo.env "eid" "Intro"
            (Demo.payload "b" 3 ["Intro"]) DemoRuns.b_rule []
            (DemoRuns.recorded "Intro" Demo.intro "b" 3 ["Intro"]
               DemoRuns.b_rule)
            DemoRuns.intro_to_b _ _ Demo.lesson Demo.intro
            (Demo.the_widget "TextInput") _ _ _ Demo.form_b
            (Demo.the_widget "MultiForm") _ _ _ _);
    first [reflexivity | vm_compute; reflexivity | discriminate].
Defined.

Lemma post_sticky_self_loop_witness :
  FeedbackHandler.interactive_html DemoSession.stay_on_form = ""
  ∧ FeedbackHandler.oppia_html DemoSession.stay_on_form = "Try again".
Proof.
  refine (post_sticky_self_loop Demo.env "eid" "FormA"
            (Demo.payload "again" 5 ["Intro"; "FormA"])
            DemoSession.stay_rule []
            (DemoRuns.recorded "FormA" Demo.form_a "again" 5
               ["Intro"; "FormA"] DemoSession.stay_rule)
            DemoSession.stay_on_form _ _ Demo.lesson Demo.form_a
            (Demo.the_widget "MultiForm") _ _ _ _ _ _);
    first [reflexivity | vm_compute; reflexivity | discriminate].
Defined.

Lemma submit_answer_assertion_holds_witness :
  ReaderControllerEndToEndTests.state_history DemoSession.at_form_b
  = ["Intro"; "FormB"]
  ∧ ReaderControllerEndToEndTests.last_block_number DemoSession.at_form_b
    = 4%Z.
Proof.
  destruct (submit_answer_assertion_holds Demo.env DemoSession.at_intro
              (JStr "b") []
              (inr (DemoSession.at_form_b, DemoRuns.intro_to_b))
              (DemoRuns.recorded "Intro" Demo.intro "b" 3 ["Intro"]
                 DemoRuns.b_rule)) as [_ H].
  - vm_compute. reflexivity.
  - destruct (H _ _ eq_refl) as (_ & Hh & Hb & _). split; [exact Hh | exact Hb].
Defined.

Lemma init_player_passes_witness :
  ReaderControllerEndToEndTests.state_history DemoSession.started = ["Intro"]
  ∧ ReaderControllerEndToEndTests.last_block_number DemoSession.started = 0%Z.
Proof.
  destruct (init_player_passes Demo.env DemoSession.matches "eid" "A title"
              "Welc" [] DemoSession.started
              [delete_demo "eid"; load_demo "eid";
               record_state_hit "eid" "Intro" true])
    as (v & _ & _ & _ & Hb & Hh & _).
  - vm_compute. reflexivity.
  - split; [exact Hh | exact Hb].
Defined.

Lemma play_passes_witness :
  ReaderControllerEndToEndTests.last_block_number DemoSession.ended = 2%Z
  ∧ length (ReaderControllerEndToEndTests.state_history DemoSession.ended)
    = 3%nat
  ∧ last (ReaderControllerEndToEndTests.state_history DemoSession.ended)
    = Some "END".
Proof.
  destruct (play_passes Demo.env DemoSession.matches "eid" "A title"
              "Welcome" [(JStr "b", "Part B"); (JStr "end", "Bye")] []
              DemoSession.ended
              (ReaderControllerEndToEndTests.play Demo.env DemoSession.matches
                 "eid" "A title" "Welcome"
                 [(JStr "b", "Part B"); (JStr "end", "Bye")] []).2)
    as (Hb & Hl & Hlast & _).
  - vm_compute. reflexivity.
  - repeat split; assumption.
Defined.

(** * The transition handler on arbitrary request bodies *)

Section RequestFacts.
Import FeedbackRequest.
Variable env : Env.

Lemma add_one_inv x t y t' :
  add_one x t = (Ok y, t') →
  t' = t
  ∧ ((∃ n, x = Some (VInt n) ∧ y = VInt (n + 1))
     ∨ (∃ f, x = Some (VFloat f) ∧ y = VFloat (f + 1))
     ∨ (∃ b, x = Some (VBool b) ∧ y = VInt (Z.b2z b + 1))).
Proof.
  destruct x as [[]|]; cbn; intros [= <- <-]; split; eauto 6.
Qed.

Lemma add_one_cases x t :
  (∃ y, add_one x t = (Ok y, t)) ∧ can_add x = true
  ∨ add_one x t = (Raise TypeError, t) ∧ can_add x = false.
Proof. destruct x as [[]|]; cbn; eauto. Qed.

Lemma setitem_cases d key x t :
  (∃ m, d = VDict m ∧ setitem d key x t = (Ok (<[key := x]> m), t))
  ∨ setitem d key x t = (Raise TypeError, t) ∧ is_object d = false.
Proof. destruct d; cbn; eauto. Qed.

Lemma not_in_cases name history t :
  (∃ first, not_in name history t = (Ok first, t))
  ∧ iterable history = true
  ∨ not_in name history t = (Raise TypeError, t) ∧ iterable history = false.
Proof. destruct history; cbn; eauto. Qed.

Lemma append_cases history name t :
  (∃ l, history = VList l ∧ append history name t = (Ok (l ++ [VStr name]), t))
  ∨ append history name t = (Raise AttributeError, t)
    ∧ is_list history = false.
Proof. destruct history; cbn; eauto. Qed.

Lemma existsb_is_str name (h : list string) :
  existsb (is_str name) (VStr <$> h) = str_in name h.
Proof.
  induction h as [|x h IH]; [reflexivity |]. cbn.
  rewrite IH. by destruct (String.eqb x name).
Qed.

(** On a well-formed body the handler is [FeedbackHandler.post]. *)
Lemma post_of_payload exploration_id escaped_state_name payload t :
  post env exploration_id escaped_state_name (of_payload payload) t
  = match FeedbackHandler.post env exploration_id escaped_state_name payload t
    with
    | (Ok v, t') => (Ok (of_values v), t')
    | (Raise e, t') => (Raise e, t')
    end.
Proof.
  unfold post, FeedbackHandler.post.
  unfold mbind, M_bind, bind, call, ret, raise, emit, mret, M_ret.
  destruct payload as [answer handler bn ps hist]. cbn.
  destruct (get_exploration_by_id env exploration_id) as [ex|]; [| done].
  destruct (states ex !! unescape_state_name env escaped_state_name)
    as [s|]; [| done].
  destruct bn as [n|]; [| done]. cbn.
  replace (default (VDict ∅) (VDict <$> ps)) with (VDict (default ∅ ps))
    by (by destruct ps).
  cbn. destruct hist as [h|]; [| done]. cbn.
  destruct (classify env _ _ _ _ _) as [r|]; [| done].
  destruct (FeedbackHandler.post_new_state env ex (dest r) t)
    as [[ns|?] t1]; [| done].
  rewrite existsb_is_str.
  destruct (FeedbackHandler.post_sticky env (dest r) ns s _)
    as [[b|?] t2]; [| done].
  destruct (FeedbackHandler._append_answer_to_stats_log _ _ _ _ _ _ _ _ _)
    as [[?|?] t3]; [| done].
  destruct (get_widget_by_id env _ _) as [w|]; [| done].
  destruct (FeedbackHandler._append_content _ _ _ _ _ _ _ _ _ _)
    as [[out|?] t4]; [| done].
  unfold of_values. cbn. by rewrite fmap_app.
Qed.

(** The block number of an answer is what line 190 made of the one
    sent. *)
Lemma post_block_number_added
    exploration_id escaped_state_name payload t v t' :
  post env exploration_id escaped_state_name payload t = (Ok v, t') →
  ∃ t0, add_one (p_block_number payload) t0 = (Ok (block_number v), t0).
Proof.
  intros H. unfold post in H.
  apply bind_inv in H as (ex & t1 & _ & H).
  apply bind_inv in H as (s & t2 & _ & H).
  apply bind_inv in H as (bn & t3 & Hbn & H).
  apply add_one_inv in Hbn as Hbn'. destruct Hbn' as [-> _].
  apply bind_inv in H as (ps & t4 & _ & H).
  apply bind_inv in H as (hist & t5 & _ & H).
  apply bind_inv in H as (r & t6 & _ & H).
  apply bind_inv in H as (ns & t7 & _ & H).
  apply bind_inv in H as (first & t8 & _ & H).
  apply bind_inv in H as (? & t9 & _ & H).
  apply bind_inv in H as (hist' & t10 & _ & H).
  apply bind_inv in H as (b & t11 & _ & H).
  apply bind_inv in H as (? & t12 & _ & H).
  apply bind_inv in H as (w & t13 & _ & H).
  apply bind_inv in H as (out & t14 & _ & H).
  apply mret_inv in H as [-> _]. by exists t2.
Qed.

(** C7: when the client sends an integer block number [n], the
    [block_number] of the response is the integer [n + 1], exactly one
    greater.  (A float is answered with its IEEE sum with 1, a boolean with
    1 or 2.) *)
Theorem post_block_number_integer
    exploration_id escaped_state_name payload t v t' n :
  post env exploration_id escaped_state_name payload t = (Ok v, t') →
  p_block_number payload = Some (VInt n) →
  block_number v = VInt (n + 1)
  ∧ successor (VInt n) (block_number v).
Proof.
  intros H Hn. destruct (post_block_number_added _ _ _ _ _ _ H) as [t0 Hbn].
  rewrite Hn in Hbn. injection Hbn as Hbn. rewrite <- Hbn. split; [done |].
  unfold successor, one_greater. cbn [exact fst snd].
  apply Z.eqb_eq. rewrite Z.min_id, Z.sub_0_r. cbn. lia.
Qed.

(** X18: when the client sends [state_history] as a string or as an object
    instead of a list, the handler still records the state hit of the
    destination, the first-visit flag read off the string as an occurrence
    test and off the object as a test of its keys, and then fails with
    [AttributeError] at [state_history.append]: no answer is recorded and
    no response rendered. *)
Theorem post_history_not_a_list
    exploration_id escaped_state_name payload exploration old_state rule t :
  let run := post env exploration_id escaped_state_name payload t in
  get_exploration_by_id env exploration_id = Some exploration →
  states exploration !! unescape_state_name env escaped_state_name
  = Some old_state →
  can_add (p_block_number payload) = true →
  (∀ p, p_params payload = Some p → is_object p = true) →
  classify env exploration_id (unescape_state_name env escaped_state_name)
    (p_handler payload) (p_answer payload) (old_params payload) = Some rule →
  dest rule = END_DEST env ∨ is_Some (states exploration !! dest rule) →
  (∀ s, p_state_history payload = Some (VStr s) →
        run = (Raise AttributeError,
               t ++ [record_state_hit exploration_id (dest rule)
                       (negb (contains (dest rule) s))]))
  ∧ (∀ d, p_state_history payload = Some (VDict d) →
          run = (Raise AttributeError,
                 t ++ [record_state_hit exploration_id (dest rule)
                         (negb (bool_decide (is_Some (d !! dest rule))))])).
Proof.
  intros run He Hs Hn Hp Hr Hd. unfold run, post.
  destruct (destination_of_resolved _ _ _ Hd) as [ns Hns].
  destruct (add_one_cases (p_block_number payload) t)
    as [[[bn Hbn] _] | [_ Hno]]; [| congruence].
  assert (setitem (default (VDict ∅) (p_params payload)) "answer"
            (p_answer payload) t = (Ok (old_params payload), t)) as Hset.
  { unfold old_params. destruct (p_params payload) as [p|] eqn:Hpp.
    - specialize (Hp p eq_refl). by destruct p.
    - reflexivity. }
  split; intros h Hh; mstep;
    erewrite bind_ok by exact Hbn;
    erewrite bind_ok by exact Hset;
    rewrite Hh; mstep;
    (erewrite bind_ok by (by apply post_new_state_destination));
    (erewrite bind_ok by reflexivity);
    (erewrite bind_ok by reflexivity);
    (erewrite bind_raise; [reflexivity | reflexivity]).
Qed.

(** X5: whatever the body, these are the failures of the handler before
    it records anything, in the order of its lookups: an unknown
    exploration (the service's error); a missing origin state
    ([KeyError]); a block number that is missing, [null] or not a number
    ([TypeError] at [+ 1]); parameters that are sent and are not an object
    ([TypeError] at the assignment of the answer); a missing
    [state_history] key ([KeyError]); a failed classification (the
    service's error); a destination that is neither the end sentinel nor a
    state of the exploration ([KeyError]); a [state_history] that is
    [null], a boolean or a number ([TypeError] at [not in]). *)
Theorem post_request_fails_before_recording
    exploration_id escaped_state_name payload t :
  let origin := unescape_state_name env escaped_state_name in
  let run := post env exploration_id escaped_state_name payload t in
  (get_exploration_by_id env exploration_id = None →
   run = (Raise ServiceError, t))
  ∧ ∀ exploration,
      get_exploration_by_id env exploration_id = Some exploration →
      (states exploration !! origin = None → run = (Raise KeyError, t))
      ∧ ∀ old_state,
          states exploration !! origin = Some old_state →
          (can_add (p_block_number payload) = false →
           run = (Raise TypeError, t))
          ∧ (can_add (p_block_number payload) = true →
             (∀ p, p_params payload = Some p → is_object p = false →
                   run = (Raise TypeError, t))
             ∧ ((∀ p, p_params payload = Some p → is_object p = true) →
                (p_state_history payload = None → run = (Raise KeyError, t))
                ∧ ∀ history,
                    p_state_history payload = Some history →
                    (classify env exploration_id origin (p_handler payload)
                       (p_answer payload) (old_params payload) = None →
                     run = (Raise ServiceError, t))
                    ∧ ∀ rule,
                        classify env exploration_id origin (p_handler payload)
                          (p_answer payload) (old_params payload) = Some rule →
                        (dest rule ≠ END_DEST env →
                         states exploration !! dest rule = None →
                         run = (Raise KeyError, t))
                        ∧ (dest rule = END_DEST env
                           ∨ is_Some (states exploration !! dest rule) →
                           iterable history = false →
                           run = (Raise TypeError, t)))).
Proof.
  cbv zeta. unfold post. split.
  { intros He. erewrite bind_raise; [done |]. by rewrite He. }
  intros ex He. mstep. split.
  { intros Hs. erewrite bind_raise; [done |]. by rewrite Hs. }
  intros s Hs. mstep.
  destruct (add_one_cases (p_block_number payload) t)
    as [[[bn Hbn] Hyes] | [Hbn Hno]].
  2: { split; [intros _; by erewrite bind_raise | congruence]. }
  split; [congruence |]. intros _.
  erewrite bind_ok by exact Hbn. split.
  { intros p Hp Hobj. rewrite Hp. cbn [default].
    destruct (setitem_cases p "answer" (p_answer payload) t)
      as [(m & -> & _) | [Hset _]]; [done |].
    by erewrite bind_raise. }
  intros Hp.
  assert (setitem (default (VDict ∅) (p_params payload)) "answer"
            (p_answer payload) t = (Ok (old_params payload), t)) as Hset.
  { unfold old_params. destruct (p_params payload) as [p|] eqn:Hpp.
    - specialize (Hp p eq_refl). by destruct p.
    - reflexivity. }
  erewrite bind_ok by exact Hset. split.
  { intros Hh. erewrite bind_raise; [done |]. by rewrite Hh. }
  intros h Hh. mstep. split.
  { intros Hr. erewrite bind_raise; [done |]. by rewrite Hr. }
  intros r Hr. mstep. split.
  { intros Hne Hd. erewrite bind_raise; [done |].
    by apply post_new_state_unknown. }
  intros Hd Hiter. destruct (destination_of_resolved _ _ _ Hd) as [ns Hns].
  erewrite bind_ok by (by apply post_new_state_destination).
  destruct (not_in_cases (dest r) h t) as [[_ Hyes'] | [Hnot _]];
    [congruence |].
  by erewrite bind_raise.
Qed.

(** X8: whatever the body, a failure of the handler is a service or
    registry error, a [KeyError], a [TypeError] or an [AttributeError]:
    never a [PageNotFoundException].  An [AttributeError] comes only from
    [state_history.append] on a history that is not a list, with the state
    hit alone recorded; it never comes from a dereference of the missing
    destination state.  The events recorded before a failure are kept, and
    there are at most two of them. *)
Theorem post_request_raise_inv
    exploration_id escaped_state_name payload t e t' :
  post env exploration_id escaped_state_name payload t = (Raise e, t') →
  (e = ServiceError ∨ e = KeyError ∨ e = TypeError ∨ e = AttributeError)
  ∧ (∃ recorded, t' = t ++ recorded ∧ (length recorded ≤ 2)%nat)
  ∧ (e = AttributeError →
     ∃ history first_visit rule,
       p_state_history payload = Some history
       ∧ is_list history = false
       ∧ iterable history = true
       ∧ t' = t ++ [record_state_hit exploration_id (dest rule) first_visit]).
Proof.
  intros H.
  assert (t = t ++ [] ∧ (length ([] : list effect) ≤ 2)%nat) as Hnil
    by (split; [by rewrite app_nil_r | cbn; lia]).
  unfold post in H.
  apply bind_raise_inv in H as [H | (ex & t1 & Hex & H)].
  { apply call_raise_inv in H as (_ & -> & ->). split; [auto |].
    split; [eauto | done]. }
  apply call_inv in Hex as [Hex ->].
  apply bind_raise_inv in H as [H | (s & t1 & Hs & H)].
  { apply call_raise_inv in H as (_ & -> & ->). split; [auto |].
    split; [eauto | done]. }
  apply call_inv in Hs as [Hs ->].
  destruct (add_one_cases (p_block_number payload) t)
    as [[[bn Hbn] _] | [Hbn _]].
  2: { erewrite bind_raise in H by exact Hbn. injection H as <- <-.
       split; [auto |]. split; [eauto | done]. }
  erewrite bind_ok in H by exact Hbn.
  destruct (setitem_cases (default (VDict ∅) (p_params payload)) "answer"
              (p_answer payload) t) as [(m & _ & Hset) | [Hset _]].
  2: { erewrite bind_raise in H by exact Hset. injection H as <- <-.
       split; [auto |]. split; [eauto | done]. }
  erewrite bind_ok in H by exact Hset.
  apply bind_raise_inv in H as [H | (h & t1 & Hh & H)].
  { apply call_raise_inv in H as (_ & -> & ->). split; [auto |].
    split; [eauto | done]. }
  apply call_inv in Hh as [Hh ->].
  apply bind_raise_inv in H as [H | (r & t1 & Hr & H)].
  { apply call_raise_inv in H as (_ & -> & ->). split; [auto |].
    split; [eauto | done]. }
  apply call_inv in Hr as [Hr ->].
  destruct (post_new_state_cases env ex (dest r) t)
    as [(ns & Hns & Hd) | (Hns & _)].
  2: { erewrite bind_raise in H by exact Hns. injection H as <- <-.
       split; [auto |]. split; [eauto | done]. }
  erewrite bind_ok in H by exact Hns.
  destruct (not_in_cases (dest r) h t) as [[[first Hfirst] Hiter] | [Hnot _]].
  2: { erewrite bind_raise in H by exact Hnot. injection H as <- <-.
       split; [auto |]. split; [eauto | done]. }
  erewrite bind_ok in H by exact Hfirst.
  erewrite bind_ok in H by reflexivity.
  set (hit := record_state_hit exploration_id (dest r) first) in *.
  destruct (append_cases h (dest r) (t ++ [hit]))
    as [(l & _ & Happ) | [Happ Hlist]].
  2: { erewrite bind_raise in H by exact Happ. injection H as <- <-.
       split; [auto |]. split.
       - exists [hit]. split; [done | cbn; lia].
       - intros _. by exists h, first, r. }
  erewrite bind_ok in H by exact Happ.
  destruct (post_sticky_total env ex (dest r) ns s (t ++ [hit]) Hd)
    as [b Hb].
  erewrite bind_ok in H by exact Hb.
  apply bind_raise_inv in H as [H | (? & t2 & Hlog & H)].
  { unfold FeedbackHandler._append_answer_to_stats_log in H.
    apply bind_raise_inv in H as [H | (? & ? & _ & H)]; [| discriminate].
    apply call_raise_inv in H as (_ & -> & ->).
    split; [auto |]. split; [| done].
    exists [hit]. split; [done | cbn; lia]. }
  unfold FeedbackHandler._append_answer_to_stats_log in Hlog.
  apply bind_inv in Hlog as (w0 & t3 & Hw0 & Hlog).
  apply call_inv in Hw0 as [_ ->]. injection Hlog as _ <-.
  match type of H with
  | context [(t ++ [hit]) ++ [?a]] => set (answered := a) in *
  end.
  assert ((t ++ [hit]) ++ [answered] = t ++ [hit; answered]) as Htwo
    by (by rewrite <- app_assoc).
  apply bind_raise_inv in H as [H | (w & t3 & Hw & H)].
  { apply call_raise_inv in H as (_ & -> & ->).
    split; [auto |]. split; [| done].
    exists [hit; answered]. split; [done | cbn; lia]. }
  apply call_inv in Hw as [_ ->].
  apply bind_raise_inv in H as [H | (? & ? & _ & H)]; [| discriminate].
  match type of H with
  | FeedbackHandler._append_content _ _ ?st _ ?op _ _ ?ch ?html ?tr = _ =>
      destruct (append_content_cases env ex exploration_id st op (dest r) ns
                  ch html tr Hd) as [[out Hout] | Hout]
  end; rewrite Hout in H; [discriminate |].
  injection H as <- <-.
  split; [auto |]. split; [| done].
  exists [hit; answered]. split; [done | cbn; lia].
Qed.

End RequestFacts.

(** A float block number is not always answered with its successor: sent
    as 2 ^ 53, the block number comes back as it was sent. *)
Lemma post_block_number_float_unchanged :
  ¬ ∀ env exploration_id escaped_state_name payload n t v t',
      FeedbackRequest.post env exploration_id escaped_state_name payload t
      = (Ok v, t') →
      FeedbackRequest.p_block_number payload = Some n →
      FeedbackRequest.successor n (FeedbackRequest.block_number v).
Proof.
  intros H.
  specialize (H Demo.env "eid" "Intro" DemoRequests.float_block
                (FeedbackRequest.VFloat DemoRequests.big) []
                DemoRequests.float_block_response
                (DemoRuns.recorded "Intro" Demo.intro "b" 3 ["Intro"]
                   DemoRuns.b_rule)).
  assert (FeedbackRequest.successor (FeedbackRequest.VFloat DemoRequests.big)
            (FeedbackRequest.VFloat DemoRequests.big)) as Hs.
  { apply H; [vm_compute; reflexivity | reflexivity]. }
  vm_compute in Hs. discriminate Hs.
Qed.

(** ** Requests of any shape, sent to the demo lesson *)

Example add_one_float :
  FeedbackRequest.add_one (Some (FeedbackRequest.VFloat 0.5)) []
  = (Ok (FeedbackRequest.VFloat 1.5), [])
  ∧ FeedbackRequest.add_one
      (Some (FeedbackRequest.VFloat DemoRequests.big)) []
    = (Ok (FeedbackRequest.VFloat DemoRequests.big), []).
Proof. split; reflexivity. Qed.

Example null_params_rejected :
  FeedbackRequest.post Demo.env "eid" "Intro" DemoRequests.null_params []
  = (Raise TypeError, []).
Proof. reflexivity. Qed.

Lemma post_block_number_integer_witness :
  FeedbackRequest.block_number (FeedbackRequest.of_values DemoRuns.intro_to_b)
  = FeedbackRequest.VInt 4
  ∧ FeedbackRequest.successor (FeedbackRequest.VInt 3)
      (FeedbackRequest.block_number
         (FeedbackRequest.of_values DemoRuns.intro_to_b)).
Proof.
  refine (post_block_number_integer Demo.env "eid" "Intro"
            (FeedbackRequest.of_payload (Demo.payload "b" 3 ["Intro"])) []
            (FeedbackRequest.of_values DemoRuns.intro_to_b)
            (DemoRuns.recorded "Intro" Demo.intro "b" 3 ["Intro"]
               DemoRuns.b_rule) 3%Z _ _).
  - vm_compute. reflexivity.
  - reflexivity.
Defined.

Lemma post_history_not_a_list_witness :
  FeedbackRequest.post Demo.env "eid" "Intro" DemoRequests.string_history []
  = (Raise AttributeError, [record_state_hit "eid" "FormB" true]).
Proof.
  destruct (post_history_not_a_list Demo.env "eid" "Intro"
              DemoRequests.string_history Demo.lesson Demo.intro
              DemoRuns.b_rule []) as [Hstr _].
  - reflexivity.
  - reflexivity.
  - reflexivity.
  - intros p [=].
  - reflexivity.
  - right. by eexists.
  - exact (Hstr "Intro" eq_refl).
Defined.

Lemma post_request_raise_inv_witness :
  (AttributeError = ServiceError ∨ AttributeError = KeyError
   ∨ AttributeError = TypeError ∨ AttributeError = AttributeError)
  ∧ (∃ recorded,
       [record_state_hit "eid" "FormB" true] = [] ++ recorded
       ∧ (length recorded ≤ 2)%nat)
  ∧ (AttributeError = AttributeError →
     ∃ history first_visit rule,
       FeedbackRequest.p_state_history DemoRequests.string_history
       = Some history
       ∧ FeedbackRequest.is_list history = false
       ∧ FeedbackRequest.iterable history = true
       ∧ [record_state_hit "eid" "FormB" true]
         = [] ++ [record_state_hit "eid" (dest rule) first_visit]).
Proof.
  apply (post_request_raise_inv Demo.env "eid" "Intro"
           DemoRequests.string_history []).
  reflexivity.
Defined.
